(** * Alphabox server: the word-game core

    A shallow embedding of the two Moleculer services that make up the
    word-game core of the server:

    - [languages.service.js]: the dictionary store ([created], [get],
      [check], [checkMultiple], [checkLanguage], [checkWord]);
    - the [games] service: the level registry and the scoring action
      ([created], [getSettings], [settings], [findWordsResults]).

    JavaScript values are modelled as far as this code uses them.  Strings
    are byte strings with the ASCII case mapping, which is that of
    JavaScript on ASCII strings.  A plain object that the code enumerates
    ([results], the [response] of [checkMultiple]) is its table of own
    properties, kept in the order [Object.keys] lists them.  The two
    stores, keyed by language code, are finite maps of own properties
    under the prototype [Object.prototype]; the actions read them at own
    keys, after a [hasOwnProperty] test.  [getSettings] reads
    [games[lang]] without such a test: [getSettingsChain] follows that
    read through the prototype chain, and agrees with [getSettings] on
    every language code that names no property of [Object.prototype].
    A dictionary is read at the words of the client, so that its reads
    account for inherited properties.  Numbers of the level files are
    integers; [Double] runs the scoring loop on binary64 numbers.  An
    exception is the [Throw] outcome of a computation.  [ctx.call]
    between the two services is a call of the action's handler inside
    the same broker: the handler's return value reaches the caller as it
    is. *)

From Stdlib Require Import ZArith NArith Ascii String List Bool Lia.
From Stdlib Require PrimFloat.
From stdpp Require Import base option list strings gmap fin_maps.

Local Open Scope string_scope.
Local Open Scope Z_scope.

(** ** JavaScript strings *)

Module JsString.

(** One character of [String.prototype.toLowerCase], ASCII range. *)
Definition lower_char (c : ascii) : ascii :=
  let n := nat_of_ascii c in
  if (Nat.leb 65 n && Nat.leb n 90)%bool then ascii_of_nat (n + 32) else c.

(** [s.toLowerCase()], as it is on a string of ASCII characters. *)
Fixpoint toLowerCase (s : string) : string :=
  match s with
  | EmptyString => EmptyString
  | String c rest => String (lower_char c) (toLowerCase rest)
  end.

(** [s.startsWith(p)] *)
Fixpoint startsWith (s p : string) : bool :=
  match p, s with
  | EmptyString, _ => true
  | String _ _, EmptyString => false
  | String b p', String a s' => (Ascii.eqb a b && startsWith s' p')%bool
  end.

(** [s.endsWith(p)] *)
Definition endsWith (s p : string) : bool :=
  let ls := String.length s in
  let lp := String.length p in
  (Nat.leb lp ls && String.eqb (String.substring (ls - lp) lp s) p)%bool.

(** [s.replace(pat, rep)] with a string pattern: the first occurrence of
    [pat] only. *)
Fixpoint replace (s pat rep : string) : string :=
  if startsWith s pat
  then rep ++ String.substring (String.length pat) (String.length s - String.length pat) s
  else match s with
       | EmptyString => EmptyString
       | String c rest => String c (replace rest pat rep)
       end.

(** The numeric value of a string of decimal digits, [None] on any other
    character. *)
Fixpoint digits (s : string) (acc : N) : option N :=
  match s with
  | EmptyString => Some acc
  | String c rest =>
      let n := N_of_ascii c in
      if (N.leb 48 n && N.leb n 57)%bool
      then digits rest (10 * acc + (n - 48))%N
      else None
  end.

(** A property key is an array index when it is the canonical decimal
    spelling of an integer in [0, 2^32 - 2]: those keys are enumerated
    first, in ascending numeric order. *)
Definition arrayIndex (s : string) : option N :=
  match s with
  | EmptyString => None
  | String "0" EmptyString => Some 0%N
  | String "0" _ => None
  | _ => match digits s 0 with
         | Some n => if (n <? 4294967295)%N then Some n else None
         | None => None
         end
  end.

Definition isArrayIndex (s : string) : bool :=
  match arrayIndex s with Some _ => true | None => false end.

End JsString.

(** ** JavaScript values and numbers *)

(** The values that end up in [results] and in the response of
    [checkMultiple]: a primitive boolean, a [Boolean] wrapper object, or
    [undefined] when a property is read that the object does not have. *)
Inductive JsValue :=
| JsUndefined
| JsBoolean (b : bool)
| JsBooleanObject (b : bool).

(** A number: integers, and [NaN] for [ToNumber(undefined)]. *)
Inductive JsNumber :=
| NaN
| Num (z : Z).

(** [Number(s)] on a request parameter, kept unevaluated. *)
Inductive JsNumberOfString :=
| Number (s : string).

Module Js.

(** Truthiness.  Every object is truthy, also [new Boolean(false)]. *)
Definition ToBoolean (v : JsValue) : bool :=
  match v with
  | JsUndefined => false
  | JsBoolean b => b
  | JsBooleanObject _ => true
  end.

(** Numeric conversion; a wrapper object converts through [valueOf]. *)
Definition ToNumber (v : JsValue) : JsNumber :=
  match v with
  | JsUndefined => NaN
  | JsBoolean b | JsBooleanObject b => Num (if b then 1 else 0)
  end.

(** [a && b] *)
Definition and (a b : JsValue) : JsValue :=
  if ToBoolean a then b else a.

Definition add (a b : JsNumber) : JsNumber :=
  match a, b with
  | Num x, Num y => Num (x + y)
  | _, _ => NaN
  end.

Definition mul (a b : JsNumber) : JsNumber :=
  match a, b with
  | Num x, Num y => Num (x * y)
  | _, _ => NaN
  end.

(** [a >= b]: false when an operand is [NaN]. *)
Definition ge (a b : JsNumber) : bool :=
  match a, b with
  | Num x, Num y => y <=? x
  | _, _ => false
  end.

(** [arr.findIndex(p)] *)
Fixpoint findIndex {A : Type} (p : A -> bool) (arr : list A) : Z :=
  match arr with
  | [] => -1
  | x :: rest =>
      if p x then 0
      else let i := findIndex p rest in
           if i <? 0 then -1 else i + 1
  end.

End Js.

(** ** Plain objects enumerated by the code

    An object created by [{}] and filled by assignments [o[k] = v].  The
    table lists the own properties in [Object.keys] order: array-index
    keys in ascending numeric order, then the other keys in the order
    they were first assigned. *)

Definition JsObject (V : Type) : Type := list (string * V).

Module JsObject.
Section Ops.
Context {V : Type}.

(** [{}] *)
Definition empty : JsObject V := [].

(** [o.hasOwnProperty(k)] *)
Fixpoint hasOwnProperty (o : JsObject V) (k : string) : bool :=
  match o with
  | [] => false
  | (k', _) :: rest => (String.eqb k' k || hasOwnProperty rest k)%bool
  end.

(** The own property [k], if any. *)
Fixpoint getOwn (o : JsObject V) (k : string) : option V :=
  match o with
  | [] => None
  | (k', v) :: rest => if String.eqb k' k then Some v else getOwn rest k
  end.

(** Overwrite the value of an existing own property, in place. *)
Fixpoint update (o : JsObject V) (k : string) (v : V) : JsObject V :=
  match o with
  | [] => []
  | (k', v') :: rest =>
      if String.eqb k' k then (k', v) :: rest
      else (k', v') :: update rest k v
  end.

(** Add the array-index key [k] (of value [n]) among the index keys. *)
Fixpoint insertIndex (o : JsObject V) (k : string) (n : N) (v : V) : JsObject V :=
  match o with
  | [] => [(k, v)]
  | (k', v') :: rest =>
      match JsString.arrayIndex k' with
      | Some n' =>
          if (n' <? n)%N then (k', v') :: insertIndex rest k n v
          else (k, v) :: o
      | None => (k, v) :: o
      end
  end.

(** [o[k] = v].  The key ["__proto__"] reaches the setter inherited
    from [Object.prototype], which adds no own property. *)
Definition set (o : JsObject V) (k : string) (v : V) : JsObject V :=
  if String.eqb k "__proto__" then o
  else if hasOwnProperty o k then update o k v
  else match JsString.arrayIndex k with
       | Some n => insertIndex o k n v
       | None => (o ++ [(k, v)])%list
       end.

(** [Object.keys(o)] *)
Definition keys (o : JsObject V) : list string := map fst o.

End Ops.

(** [o[k]] at an own key; [undefined] for a key the object lacks.  The
    code reads [results] and [checkInDictionary] at their own keys only. *)
Definition get (o : JsObject JsValue) (k : string) : JsValue :=
  match getOwn o k with
  | Some v => v
  | None => JsUndefined
  end.

End JsObject.

(** ** Exceptions *)

(** [new MoleculerClientError(message, code, type, data)]; [data] is an
    array of [{ field, message }] pairs. *)
Module MoleculerClientError.
Record t := {
  message : string;
  code : Z;
  type : string;
  data : list (string * string)
}.
End MoleculerClientError.

Inductive Exception :=
| ClientError (e : MoleculerClientError.t)
| TypeError
| SyntaxError.

Inductive Completion (A : Type) :=
| Return (a : A)
| Throw (e : Exception).

Arguments Return {A} a.
Arguments Throw {A} e.

Definition bind {A B : Type} (c : Completion A) (k : A -> Completion B) : Completion B :=
  match c with
  | Return a => k a
  | Throw e => Throw e
  end.

Notation "'let!' x ':=' c 'in' k" := (bind c (fun x => k))
  (at level 10, x name, c at level 100, k at level 200).

(** [arr.forEach(x => ...)] over a loop state, stopping at the first
    exception. *)
Fixpoint forEach {A S : Type} (arr : list A) (body : S -> A -> Completion S) (s : S)
  : Completion S :=
  match arr with
  | [] => Return s
  | x :: rest => let! s' := body s x in forEach rest body s'
  end.

(** ** The dictionary files

    A dictionary file holds a JSON object keyed by word; [JSON.parse]
    gives the table of its own properties.  JSON numbers are modelled by
    integers. *)

#[local] Unset Elimination Schemes.
Inductive Json :=
| JNull
| JBool (b : bool)
| JNum (n : Z)
| JStr (s : string)
| JArr (elements : list Json)
| JObj (members : list (string * Json)).
#[local] Set Elimination Schemes.

Module Dictionary.

(** Truthiness of a parsed JSON value. *)
Definition truthy (v : Json) : bool :=
  match v with
  | JNull => false
  | JBool b => b
  | JNum n => negb (n =? 0)
  | JStr s => negb (String.eqb s "")
  | JArr _ | JObj _ => true
  end.

(** The properties every plain object inherits from [Object.prototype];
    each is a function, or an object for ["__proto__"]. *)
Definition Object_prototype : list string :=
  [ "constructor"; "__defineGetter__"; "__defineSetter__"; "hasOwnProperty";
    "__lookupGetter__"; "__lookupSetter__"; "isPrototypeOf";
    "propertyIsEnumerable"; "toString"; "valueOf"; "__proto__";
    "toLocaleString" ].

(** What [dictionary[word]] evaluates to. *)
Inductive Property :=
| Own (v : Json)
| Inherited
| Undefined.

(** [dictionary[word]]: the own property, else the inherited one, else
    [undefined]. *)
Definition get (dictionary : gmap string Json) (word : string) : Property :=
  match dictionary !! word with
  | Some v => Own v
  | None =>
      if existsb (String.eqb word) Object_prototype then Inherited else Undefined
  end.

(** [new Boolean(dictionary[word])] *)
Definition Boolean (p : Property) : JsValue :=
  match p with
  | Own v => JsBooleanObject (truthy v)
  | Inherited => JsBooleanObject true
  | Undefined => JsBooleanObject false
  end.

End Dictionary.

(** ** languages.service.js *)

Module Languages.

(** [this.metadata.dictionaries] *)
Abbreviation Dictionaries := (gmap string (gmap string Json)).

Definition notSupported (lang : string) : Exception :=
  ClientError {|
    MoleculerClientError.message := "Language " ++ lang ++ " is not supported";
    MoleculerClientError.code := 404;
    MoleculerClientError.type := "";
    MoleculerClientError.data := [("lang", "is not supported")]
  |}.

(** [this.metadata.dictionaries.hasOwnProperty(lang)] *)
Definition hasOwnProperty (dictionaries : Dictionaries) (lang : string) : bool :=
  match dictionaries !! lang with
  | Some _ => true
  | None => false
  end.

(** The object [{ result: found }]. *)
Record CheckResult := { result : JsValue }.

(** Method [checkWord].  The actions call it on a language that passed
    their [hasOwnProperty] test, where [dictionaries[language]] is the
    own property. *)
Definition checkWord (dictionaries : Dictionaries) (language word : string)
  : Completion CheckResult :=
  match dictionaries !! language with
  | None => Throw TypeError
  | Some dictionary =>
      let found := Dictionary.Boolean (Dictionary.get dictionary word) in
      Return {| result := found |}
  end.

(** Action [check]. *)
Definition check (dictionaries : Dictionaries) (lang word : string)
  : Completion CheckResult :=
  if negb (hasOwnProperty dictionaries lang) then Throw (notSupported lang)
  else checkWord dictionaries lang word.

(** Action [checkMultiple]. *)
Definition checkMultiple (dictionaries : Dictionaries) (lang : string)
    (words : list string) : Completion (JsObject JsValue) :=
  if negb (hasOwnProperty dictionaries lang) then Throw (notSupported lang)
  else
    forEach words
      (fun response word =>
         let! checked := checkWord dictionaries lang word in
         Return (JsObject.set response word (result checked)))
      JsObject.empty.

(** Action [checkLanguage]. *)
Definition checkLanguage (dictionaries : Dictionaries) (lang : string) : bool :=
  hasOwnProperty dictionaries lang.

(** A directory entry of [DICTIONARY_DIR].  [parsed] is what
    [JSON.parse] makes of the file's text; [None] when it throws a
    [SyntaxError]. *)
Record Dirent := {
  name : string;
  isFile : bool;
  parsed : option (gmap string Json)
}.

(** The assignment [dictionaries[filename] = words] on the own
    properties of [metadata.dictionaries]: under ["__proto__"] it reaches
    the setter inherited from [Object.prototype], which adds no own
    property. *)
Definition assign (dictionaries : Dictionaries) (filename : string)
    (words : gmap string Json) : Dictionaries :=
  if String.eqb filename "__proto__" then dictionaries
  else <[filename := words]> dictionaries.

(** The [created] hook: the loop over the entries that
    [directory.readSync()] yields, starting from the dictionaries loaded
    so far.  It returns the dictionaries the service is left with and
    how the hook completes. *)
Fixpoint created (directory : list Dirent) (dictionaries : Dictionaries)
  : Dictionaries * Completion unit :=
  match directory with
  | [] => (dictionaries, Return tt)
  | dictionary :: rest =>
      if (isFile dictionary && JsString.endsWith (name dictionary) ".json")%bool then
        let filename := JsString.replace (name dictionary) ".json" "" in
        match parsed dictionary with
        | None => (dictionaries, Throw SyntaxError)
        | Some words => created rest (assign dictionaries filename words)
        end
      else created rest dictionaries
  end.

(** Modelled from the spec: the action [languages.someWords] that
    [findWordsResults] calls is not in the source.  The spec (4.1, 4.4,
    8) has it return up to [count] distinct words of the language's word
    set that start with [prefix], compared without case, and that are
    not among [except], compared without case, in a fixed order; an
    unsupported language is the "language not supported" failure. *)
Definition someWords (dictionaries : Dictionaries) (prefix : string)
    (except : list string) (lang : string) (count : nat)
  : Completion (list string) :=
  match dictionaries !! lang with
  | None => Throw (notSupported lang)
  | Some dictionary =>
      let candidate word :=
        (JsString.startsWith (JsString.toLowerCase word) (JsString.toLowerCase prefix)
         && negb (existsb (fun tried =>
                             String.eqb (JsString.toLowerCase tried)
                                        (JsString.toLowerCase word)) except))%bool in
      Return (take count (filter (fun word => candidate word = true)
                                 (map fst (map_to_list dictionary))))
  end.

(** [metadata.dictionaries] as the table of its own properties, for the
    code that enumerates it. *)
Abbreviation Table := (JsObject (gmap string Json)).

(** The [created] hook on the table of own properties: the same loop,
    with the assignment [dictionaries[filename] = JSON.parse(...)] as an
    assignment to a plain object. *)
Fixpoint createdTable (directory : list Dirent) (dictionaries : Table)
  : Table * Completion unit :=
  match directory with
  | [] => (dictionaries, Return tt)
  | dictionary :: rest =>
      if (isFile dictionary && JsString.endsWith (name dictionary) ".json")%bool then
        let filename := JsString.replace (name dictionary) ".json" "" in
        match parsed dictionary with
        | None => (dictionaries, Throw SyntaxError)
        | Some words => createdTable rest (JsObject.set dictionaries filename words)
        end
      else createdTable rest dictionaries
  end.

(** The object [{ languages, count }]. *)
Record Supported := {
  languages : list string;
  count : Z
}.

(** Action [get]; [Object.getOwnPropertyNames] lists the keys of the
    table in their order. *)
Definition get (dictionaries : Table) : Supported :=
  let languages := JsObject.keys dictionaries in
  {| languages := languages; count := Z.of_nat (length languages) |}.

End Languages.

(** ** The games service *)

(** A step of a level, as the level files give it, with numbers that
    are integers. *)
Module Step.
Record t := {
  type : string;
  rewardPerWord : Z;
  required : Z
}.
End Step.

(** The settings of one level: [{ letter, steps }]. *)
Module LevelSettings.
Record t := {
  letter : string;
  steps : list Step.t
}.
End LevelSettings.

(** The response of [findWordsResults]. *)
Module Response.
Record t := {
  level : JsNumberOfString;
  success : bool;
  required : Z;
  results : JsObject JsValue;
  someWords : list string;
  score : JsNumber;
  total_found : JsNumber;
  type : string
}.
End Response.

(** The state of the two services: [metadata.dictionaries] of
    [languages] and [metadata.games] of [games]. *)
Record Broker := {
  dictionaries : gmap string (gmap string Json);
  games : gmap string (gmap string LevelSettings.t)
}.

Module Games.

Definition levelNotFound (lang level : string) : Exception :=
  ClientError {|
    MoleculerClientError.message :=
      "Level " ++ level ++ " does not exist for language " ++ lang;
    MoleculerClientError.code := 404;
    MoleculerClientError.type := "";
    MoleculerClientError.data := [("level", "does not exist")]
  |}.

(** Method [getSettings], with [games[lang]] read at an own key. *)
Definition getSettings (ctx : Broker) (lang level : string)
  : Completion LevelSettings.t :=
  let languageExist := Languages.checkLanguage (dictionaries ctx) lang in
  if negb languageExist then Throw (Languages.notSupported lang)
  else
    match games ctx !! lang with
    | None => Throw TypeError
    | Some levels =>
        match levels !! level with
        | None => Throw (levelNotFound lang level)
        | Some response => Return response
        end
    end.


(** Action [findWordsResults], for a [words] array of strings. *)
Definition findWordsResults (ctx : Broker) (lang level : string)
    (words : list string) : Completion Response.t :=
  let! levelSettings := getSettings ctx lang level in
  let results :=
    fold_left
      (fun results word =>
         JsObject.set results word
           (JsBoolean
              (JsString.startsWith
                 (JsString.toLowerCase word)
                 (JsString.toLowerCase (LevelSettings.letter levelSettings)))))
      words JsObject.empty in
  let! checkInDictionary :=
    Languages.checkMultiple (dictionaries ctx) lang
      (List.filter (fun key => Js.ToBoolean (JsObject.get results key))
                   (JsObject.keys results)) in
  let results :=
    fold_left
      (fun results word =>
         JsObject.set results word
           (Js.and (JsObject.get checkInDictionary word)
                   (JsObject.get results word)))
      (JsObject.keys checkInDictionary) results in
  let stepIndex :=
    Js.findIndex (fun step => String.eqb (Step.type step) "findWords")
                 (LevelSettings.steps levelSettings) in
  if stepIndex >? -1 then
    match LevelSettings.steps levelSettings !! Z.to_nat stepIndex with
    | None => Throw TypeError
    | Some step =>
        let '(score, total_found) :=
          fold_left
            (fun counters word =>
               let '(score, total_found) := counters in
               (Js.add score
                  (Js.mul (Js.ToNumber (JsObject.get results word))
                          (Num (Step.rewardPerWord step))),
                Js.add total_found (Js.ToNumber (JsObject.get results word))))
            (JsObject.keys results) (Num 0, Num 0) in
        let! someWords :=
          Languages.someWords (dictionaries ctx)
            (LevelSettings.letter levelSettings) words lang 5 in
        Return {|
          Response.level := Number level;
          Response.success := Js.ge total_found (Num (Step.required step));
          Response.required := Step.required step;
          Response.results := results;
          Response.someWords := someWords;
          Response.score := score;
          Response.total_found := total_found;
          Response.type := Step.type step
        |}
    end
  else Throw (levelNotFound lang level).


Section Host.

(** The names of the static methods of the host's [Object] constructor
    ([assign], [keys], ...), which vary with the version of the host. *)
Variable statics : list string.



End Host.

(** A directory entry of [GAMES_DATA_DIR].  [parsed] is what
    [JSON.parse] makes of the file's text, an object keyed by level;
    [None] when it throws a [SyntaxError]. *)
Record Dirent := {
  name : string;
  isFile : bool;
  parsed : option (gmap string LevelSettings.t)
}.

(** The [created] hook of the games service, on the games loaded so
    far. *)
Fixpoint created (directory : list Dirent)
    (games : gmap string (gmap string LevelSettings.t))
  : gmap string (gmap string LevelSettings.t) * Completion unit :=
  match directory with
  | [] => (games, Return tt)
  | game :: rest =>
      if (isFile game && JsString.endsWith (name game) ".json")%bool then
        let filename := JsString.replace (name game) ".json" "" in
        match parsed game with
        | None => (games, Throw SyntaxError)
        | Some levels => created rest (<[filename := levels]> games)
        end
      else created rest games
  end.

End Games.

(** ** The scoring loop on binary64 numbers

    JavaScript numbers are binary64 floating-point numbers.  [Double]
    runs the third loop of [findWordsResults] on them, for a
    [rewardPerWord] that is any number. *)

Module Double.
Import PrimFloat.

(** Numeric conversion of a value of [results]. *)
Definition ToNumber (v : JsValue) : float :=
  match v with
  | JsUndefined => nan
  | JsBoolean b | JsBooleanObject b => if b then one else zero
  end.

(** The loop [Object.keys(results).forEach(...)] on [score] and
    [total_found], both starting at 0. *)
Definition tally (results : JsObject JsValue) (rewardPerWord : float) : float * float :=
  fold_left
    (fun counters word =>
       let '(score, total_found) := counters in
       (add score (mul (ToNumber (JsObject.get results word)) rewardPerWord),
        add total_found (ToNumber (JsObject.get results word))))
    (JsObject.keys results) (zero, zero).

(** [a === b] on numbers. *)
Definition strictEquals (a b : float) : bool := eqb a b.

(** The numbers [0.1] and [6]. *)
Definition tenth : float := (1 / 10)%float.
Definition six : float := 6%float.

End Double.

(** ** Stores for the examples *)

Module Sample.

(** The dictionary [en.json]: [{"apple": 1, "ant": 1, "banana": 1}]. *)
Definition en : gmap string Json :=
  <["apple" := JNum 1]> (<["ant" := JNum 1]> (<["banana" := JNum 1]> ∅)).

(** Level 1: letter [a], a [findWords] step. *)
Definition level1 : LevelSettings.t := {|
  LevelSettings.letter := "a";
  LevelSettings.steps :=
    [ {| Step.type := "findWords"; Step.rewardPerWord := 10; Step.required := 2 |} ]
|}.

(** Level 2: letter [b], its only step is of another type. *)
Definition level2 : LevelSettings.t := {|
  LevelSettings.letter := "b";
  LevelSettings.steps :=
    [ {| Step.type := "quiz"; Step.rewardPerWord := 0; Step.required := 0 |} ]
|}.

(** Both data directories hold [en.json]; levels 1 and 2. *)
Definition ctx : Broker := {|
  dictionaries := <["en" := en]> ∅;
  games := <["en" := <["1" := level1]> (<["2" := level2]> ∅)]> ∅
|}.

(** The same store without level 2. *)
Definition bare : Broker := {|
  dictionaries := <["en" := en]> ∅;
  games := <["en" := <["1" := level1]> ∅]> ∅
|}.

(** [en.json] is in the dictionaries directory only. *)
Definition unregistered : Broker := {|
  dictionaries := <["en" := en]> ∅;
  games := ∅
|}.

(** A dictionaries directory whose first file does not parse. *)
Definition directory : list Languages.Dirent :=
  [ {| Languages.name := "aa.json"; Languages.isFile := true; Languages.parsed := None |};
    {| Languages.name := "en.json"; Languages.isFile := true; Languages.parsed := Some en |} ].

(** The response to the submission of the spec's example. *)
Definition response : Response.t := {|
  Response.level := Number "1";
  Response.success := true;
  Response.required := 2;
  Response.results :=
    [("apple", JsBoolean true); ("ant", JsBoolean true);
     ("banana", JsBoolean false); ("Apple", JsBoolean true)];
  Response.someWords := [];
  Response.score := Num 30;
  Response.total_found := Num 3;
  Response.type := "findWords"
|}.



(** Two files that [created] stores under the same code [a.json]. *)
Definition small : gmap string Json := <["ant" := JNum 1]> ∅.

Definition colliding : list Languages.Dirent :=
  [ {| Languages.name := ".jsona.json"; Languages.isFile := true;
       Languages.parsed := Some small |};
    {| Languages.name := "a.json.json"; Languages.isFile := true;
       Languages.parsed := Some en |} ].

(** Level 3: a step of another type, then two steps tagged
    [findWords]. *)
Definition level3 : LevelSettings.t := {|
  LevelSettings.letter := "a";
  LevelSettings.steps :=
    [ {| Step.type := "quiz"; Step.rewardPerWord := 1; Step.required := 9 |};
      {| Step.type := "findWords"; Step.rewardPerWord := 10; Step.required := 2 |};
      {| Step.type := "findWords"; Step.rewardPerWord := 99; Step.required := 1 |} ]
|}.

Definition steps3 : Broker := {|
  dictionaries := <["en" := en]> ∅;
  games := <["en" := <["3" := level3]> ∅]> ∅
|}.

(** Six words that start with [a]. *)
Definition sixWords : list string := ["aa"; "ab"; "ac"; "ad"; "ae"; "af"].

(** The response to the submission [["azzz"]] at level 1. *)
Definition suggesting : Response.t := {|
  Response.level := Number "1";
  Response.success := false;
  Response.required := 2;
  Response.results := [("azzz", JsBoolean true)];
  Response.someWords := ["ant"; "apple"];
  Response.score := Num 10;
  Response.total_found := Num 1;
  Response.type := "findWords"
|}.

End Sample.

(** ** Notions used in the statements *)

(** The prefix test of [findWordsResults] on one word. *)
Definition startsWithLetter (letter word : string) : bool :=
  JsString.startsWith (JsString.toLowerCase word) (JsString.toLowerCase letter).

(** [results] after the first loop of [findWordsResults]. *)
Definition prefixResults (letter : string) (words : list string) : JsObject JsValue :=
  fold_left
    (fun results word => JsObject.set results word (JsBoolean (startsWithLetter letter word)))
    words JsObject.empty.

(** The distinct spellings of a submission, each at the place of its
    first occurrence; [seen] lists the spellings met so far. *)
Fixpoint firstOccurrences (seen words : list string) : list string :=
  match words with
  | [] => []
  | word :: rest =>
      if existsb (String.eqb word) seen then firstOccurrences seen rest
      else word :: firstOccurrences (seen ++ [word]) rest
  end.

Definition distinctSpellings (words : list string) : list string :=
  firstOccurrences [] words.

(** A word that an object keeps as an ordinary key: neither an array
    index nor ["__proto__"]. *)
Definition ordinaryKey (word : string) : bool :=
  (negb (JsString.isArrayIndex word) && negb (String.eqb word "__proto__"))%bool.

(** The boolean that a [Boolean] wrapper holds ([valueOf]). *)
Definition valueOf (v : JsValue) : bool :=
  match v with
  | JsUndefined => false
  | JsBoolean b | JsBooleanObject b => b
  end.

(** One round of the third loop of [findWordsResults] on its two
    accumulators, and the loop. *)
Definition tally_step (results : JsObject JsValue) (reward : Z)
    (acc : JsNumber * JsNumber) (word : string) : JsNumber * JsNumber :=
  let '(score, total_found) := acc in
  (Js.add score (Js.mul (Js.ToNumber (JsObject.get results word)) (Num reward)),
   Js.add total_found (Js.ToNumber (JsObject.get results word))).

Definition tally (results : JsObject JsValue) (reward : Z) : JsNumber * JsNumber :=
  fold_left (tally_step results reward) (JsObject.keys results) (Num 0, Num 0).

(** The index of the first step tagged [findWords], or [-1]. *)
Definition findWordsIndex (levelSettings : LevelSettings.t) : Z :=
  Js.findIndex (fun step => String.eqb (Step.type step) "findWords")
               (LevelSettings.steps levelSettings).

(** The number of entries of [results] that hold a truthy value. *)
Definition countValid (results : JsObject JsValue) : Z :=
  Z.of_nat (length (List.filter (fun entry => Js.ToBoolean (snd entry)) results)).

(** A loop [words.forEach(word => { o[word] = f(word) })]. *)
Definition assignAll {V : Type} (f : string -> V) (words : list string)
    (o : JsObject V) : JsObject V :=
  fold_left (fun o word => JsObject.set o word (f word)) words o.

(** The answer of the [check] action read as a boolean: the boolean its
    [result] wraps; [None] when the action throws. *)
Definition contains (dictionaries : gmap string (gmap string Json))
    (lang word : string) : option bool :=
  match Languages.check dictionaries lang word with
  | Return checked => Some (valueOf (Languages.result checked))
  | Throw _ => None
  end.

(** What [dictionary[word]] is worth as a boolean. *)
Definition holds (dictionary : gmap string Json) (word : string) : bool :=
  match Dictionary.get dictionary word with
  | Dictionary.Own v => Dictionary.truthy v
  | Dictionary.Inherited => true
  | Dictionary.Undefined => false
  end.

(** The order in which an object enumerates its keys: the array-index
    keys first, ascending from [floor], then keys that are no array
    index. *)
Fixpoint enumerationOrder (floor : N) (ks : list string) : bool :=
  match ks with
  | [] => true
  | k :: rest =>
      match JsString.arrayIndex k with
      | Some n => ((floor <=? n)%N && enumerationOrder n rest)%bool
      | None => forallb (fun k => negb (JsString.isArrayIndex k)) rest
      end
  end.

(** The entries that [created] of the languages service reads and
    parses: regular files whose name ends with [.json]. *)
Definition dictionaryFile (entry : Languages.Dirent) : bool :=
  (Languages.isFile entry && JsString.endsWith (Languages.name entry) ".json")%bool.

(** The language code under which [created] stores a file. *)
Definition languageCode (entry : Languages.Dirent) : string :=
  JsString.replace (Languages.name entry) ".json" "".

(** The same two notions for the games service. *)
Definition levelsFile (entry : Games.Dirent) : bool :=
  (Games.isFile entry && JsString.endsWith (Games.name entry) ".json")%bool.

Definition gamesCode (entry : Games.Dirent) : string :=
  JsString.replace (Games.name entry) ".json" "".

(** The finite map that a table of own properties stands for. *)
Definition tableMap {V : Type} (o : JsObject V) : gmap string V :=
  fold_right (fun entry m => <[fst entry := snd entry]> m) ∅ o.

(** A string without the character [.]. *)
Fixpoint dotFree (s : string) : bool :=
  match s with
  | EmptyString => true
  | String c rest => (negb (Ascii.eqb c ".") && dotFree rest)%bool
  end.

(** The distinct submitted spellings that pass the prefix test. *)
Definition validSpellings (letter : string) (words : list string) : list string :=
  List.filter (startsWithLetter letter) (distinctSpellings words).

(** A string of ASCII characters. *)
Fixpoint isAscii (s : string) : bool :=
  match s with
  | EmptyString => true
  | String c rest => (Nat.ltb (nat_of_ascii c) 128 && isAscii rest)%bool
  end.

(** ** Strings *)

Example toLowerCase_Apple : JsString.toLowerCase "Apple" = "apple".
Proof. reflexivity. Qed.

Example startsWith_examples :
  JsString.startsWith "apple" "a" = true /\ JsString.startsWith "banana" "a" = false /\
  JsString.startsWith "" "a" = false /\ JsString.startsWith "a" "" = true.
Proof. repeat split; reflexivity. Qed.

Example endsWith_examples :
  JsString.endsWith "en.json" ".json" = true /\ JsString.endsWith "en.json.bak" ".json" = false /\
  JsString.endsWith "json" ".json" = false.
Proof. repeat split; reflexivity. Qed.

Example replace_examples :
  JsString.replace "en.json" ".json" "" = "en" /\
  JsString.replace "a.json.json" ".json" "" = "a.json".
Proof. repeat split; reflexivity. Qed.

Example arrayIndex_examples :
  JsString.arrayIndex "10" = Some 10%N /\ JsString.arrayIndex "0" = Some 0%N /\
  JsString.arrayIndex "01" = None /\ JsString.arrayIndex "4294967294" = Some 4294967294%N /\
  JsString.arrayIndex "4294967295" = None /\ JsString.arrayIndex "b" = None /\
  JsString.arrayIndex "" = None /\ JsString.arrayIndex "1e3" = None.
Proof. repeat split; reflexivity. Qed.

(** ** Own-property tables *)

Section ObjectFacts.
Context {V : Type}.
Implicit Types (o : JsObject V) (k : string) (v : V).

Lemma hasOwnProperty_getOwn o k :
  JsObject.hasOwnProperty o k = match JsObject.getOwn o k with Some _ => true | None => false end.
Proof.
  induction o as [|[k' v'] rest IH]; simpl; [reflexivity|].
  destruct (String.eqb k' k); simpl; [reflexivity|exact IH].
Qed.

Lemma getOwn_In o k v : JsObject.getOwn o k = Some v -> In (k, v) o.
Proof.
  induction o as [|[k' v'] rest IH]; simpl; [discriminate|].
  destruct (String.eqb k' k) eqn:E.
  - apply String.eqb_eq in E. intros [= ->]. left. congruence.
  - intros H. right. auto.
Qed.

Lemma getOwn_None_keys o k : JsObject.getOwn o k = None <-> ~ In k (JsObject.keys o).
Proof.
  induction o as [|[k' v'] rest IH]; simpl.
  - tauto.
  - destruct (String.eqb k' k) eqn:E.
    + apply String.eqb_eq in E. split; [discriminate|]. intros H. exfalso. apply H. now left.
    + apply String.eqb_neq in E. rewrite IH. tauto.
Qed.

Lemma keys_getOwn o k : In k (JsObject.keys o) -> exists v, JsObject.getOwn o k = Some v.
Proof.
  intros H. destruct (JsObject.getOwn o k) eqn:E; [eauto|].
  apply getOwn_None_keys in E. contradiction.
Qed.

Lemma keys_update o k v : JsObject.keys (JsObject.update o k v) = JsObject.keys o.
Proof.
  unfold JsObject.keys.
  induction o as [|[k' v'] rest IH]; simpl; [reflexivity|].
  destruct (String.eqb k' k); simpl; [reflexivity|]. now rewrite IH.
Qed.

Lemma update_same o k v : JsObject.getOwn o k = Some v -> JsObject.update o k v = o.
Proof.
  induction o as [|[k' v'] rest IH]; simpl; [reflexivity|].
  destruct (String.eqb k' k).
  - now intros [= ->].
  - intros H. now rewrite IH.
Qed.

Lemma getOwn_update o k v k' :
  JsObject.getOwn o k <> None ->
  JsObject.getOwn (JsObject.update o k v) k' =
  if String.eqb k k' then Some v else JsObject.getOwn o k'.
Proof.
  induction o as [|[k0 v0] rest IH]; simpl; [congruence|].
  destruct (String.eqb k0 k) eqn:E0; intros H; simpl.
  - apply String.eqb_eq in E0. subst k0. now destruct (String.eqb k k').
  - destruct (String.eqb k0 k') eqn:E1.
    + apply String.eqb_eq in E1. subst k0. rewrite String.eqb_sym, E0. reflexivity.
    + apply IH, H.
Qed.

Lemma getOwn_insertIndex o k n v k' :
  JsObject.getOwn o k = None ->
  JsObject.getOwn (JsObject.insertIndex o k n v) k' =
  if String.eqb k k' then Some v else JsObject.getOwn o k'.
Proof.
  induction o as [|[k0 v0] rest IH]; simpl; [reflexivity|].
  destruct (String.eqb k0 k) eqn:E0; [discriminate|]. intros H.
  destruct (JsString.arrayIndex k0) as [n0|]; [destruct (n0 <? n)%N|]; simpl;
    try reflexivity.
  rewrite (IH H).
  destruct (String.eqb k0 k') eqn:E1; [|reflexivity].
  apply String.eqb_eq in E1. subst k0. rewrite String.eqb_sym, E0. reflexivity.
Qed.

Lemma getOwn_app o k v k' :
  JsObject.getOwn o k = None ->
  JsObject.getOwn (o ++ [(k, v)])%list k' =
  if String.eqb k k' then Some v else JsObject.getOwn o k'.
Proof.
  induction o as [|[k0 v0] rest IH]; simpl.
  - intros _. now destruct (String.eqb k k').
  - destruct (String.eqb k0 k) eqn:E0; [discriminate|]. intros H.
    rewrite (IH H).
    destruct (String.eqb k0 k') eqn:E1; [|reflexivity].
    apply String.eqb_eq in E1. subst k0. rewrite String.eqb_sym, E0. reflexivity.
Qed.

(** Reading after an assignment. *)
Lemma getOwn_set o k v k' :
  k <> "__proto__" ->
  JsObject.getOwn (JsObject.set o k v) k' =
  if String.eqb k k' then Some v else JsObject.getOwn o k'.
Proof.
  intros Hk. unfold JsObject.set.
  destruct (String.eqb k "__proto__") eqn:E; [apply String.eqb_eq in E; contradiction|].
  rewrite hasOwnProperty_getOwn.
  destruct (JsObject.getOwn o k) eqn:G.
  - apply getOwn_update. congruence.
  - destruct (JsString.arrayIndex k).
    + now apply getOwn_insertIndex.
    + now apply getOwn_app.
Qed.

Lemma set_proto o v : JsObject.set o "__proto__" v = o.
Proof. reflexivity. Qed.

(** Assigning the value a property already has changes nothing. *)
Lemma set_same o k v : JsObject.getOwn o k = Some v -> JsObject.set o k v = o.
Proof.
  intros H. unfold JsObject.set.
  destruct (String.eqb k "__proto__"); [reflexivity|].
  rewrite hasOwnProperty_getOwn, H. now apply update_same.
Qed.

Lemma In_update o k v kv :
  In kv (JsObject.update o k v) -> In kv o \/ kv = (k, v).
Proof.
  induction o as [|[k0 v0] rest IH]; simpl; [tauto|].
  destruct (String.eqb k0 k) eqn:E.
  - apply String.eqb_eq in E. subst k0. simpl. intros [<-|H]; auto.
  - simpl. intros [<-|H]; auto. destruct (IH H); auto.
Qed.

Lemma In_insertIndex o k n v kv :
  In kv (JsObject.insertIndex o k n v) -> In kv o \/ kv = (k, v).
Proof.
  induction o as [|[k0 v0] rest IH]; simpl.
  - intros [<-|[]]. now right.
  - destruct (JsString.arrayIndex k0) as [n0|]; [destruct (n0 <? n)%N|]; simpl.
    + intros [<-|H]; auto. destruct (IH H); auto.
    + intros [<-|[<-|H]]; auto.
    + intros [<-|[<-|H]]; auto.
Qed.

(** An assignment adds no entry but its own. *)
Lemma In_set o k v kv : In kv (JsObject.set o k v) -> In kv o \/ kv = (k, v).
Proof.
  unfold JsObject.set.
  destruct (String.eqb k "__proto__"); [auto|].
  destruct (JsObject.hasOwnProperty o k); [apply In_update|].
  destruct (JsString.arrayIndex k); [apply In_insertIndex|].
  rewrite in_app_iff. simpl. intros [H|[<-|[]]]; auto.
Qed.

(** The keys after an assignment of an ordinary key. *)
Lemma keys_set_ordinary o k v :
  ordinaryKey k = true ->
  JsObject.keys (JsObject.set o k v) =
  if existsb (String.eqb k) (JsObject.keys o) then JsObject.keys o
  else (JsObject.keys o ++ [k])%list.
Proof.
  unfold ordinaryKey, JsString.isArrayIndex, JsObject.set. intros Hk.
  apply andb_true_iff in Hk as [Hi Hp].
  destruct (String.eqb k "__proto__"); [discriminate|].
  destruct (JsString.arrayIndex k); [discriminate|].
  assert (Hsame : JsObject.hasOwnProperty o k = existsb (String.eqb k) (JsObject.keys o)).
  { clear. induction o as [|[k0 v0] rest IH]; simpl; [reflexivity|].
    rewrite IH, (String.eqb_sym k0 k). reflexivity. }
  rewrite <- Hsame. destruct (JsObject.hasOwnProperty o k).
  - apply keys_update.
  - unfold JsObject.keys. rewrite map_app. reflexivity.
Qed.

Lemma insertIndex_split o k n v :
  exists before after,
    o = (before ++ after)%list /\
    JsObject.insertIndex o k n v = (before ++ (k, v) :: after)%list.
Proof.
  induction o as [|[k0 v0] rest IH]; simpl.
  - exists [], []. split; reflexivity.
  - destruct (JsString.arrayIndex k0) as [n0|]; [destruct (n0 <? n)%N|].
    + destruct IH as (before & after & -> & ->).
      exists ((k0, v0) :: before), after. split; reflexivity.
    + exists [], ((k0, v0) :: rest). split; reflexivity.
    + exists [], ((k0, v0) :: rest). split; reflexivity.
Qed.

(** Assignments keep the keys of an object distinct. *)
Lemma NoDup_keys_set o k v :
  NoDup (JsObject.keys o) -> NoDup (JsObject.keys (JsObject.set o k v)).
Proof.
  intros Hnd. unfold JsObject.set.
  destruct (String.eqb k "__proto__"); [exact Hnd|].
  rewrite hasOwnProperty_getOwn.
  destruct (JsObject.getOwn o k) eqn:G; [now rewrite keys_update|].
  apply getOwn_None_keys in G.
  destruct (JsString.arrayIndex k) as [n|].
  - destruct (insertIndex_split o k n v) as (before & after & Ho & ->).
    subst o. unfold JsObject.keys in *. rewrite map_app in *. simpl.
    rewrite <- Permutation_middle.
    apply NoDup_cons. split; [|exact Hnd]. now rewrite list_elem_of_In.
  - unfold JsObject.keys in *. rewrite map_app. simpl.
    rewrite <- Permutation_cons_append.
    apply NoDup_cons. split; [|exact Hnd]. now rewrite list_elem_of_In.
Qed.

Lemma NoDup_keys_fold_set (f : string -> V) words o :
  NoDup (JsObject.keys o) ->
  NoDup (JsObject.keys (fold_left (fun o word => JsObject.set o word (f word)) words o)).
Proof.
  revert o. induction words as [|w rest IH]; intros o Hnd; simpl; [exact Hnd|].
  apply IH, NoDup_keys_set, Hnd.
Qed.

(** With distinct keys every entry is the one a read finds. *)
Lemma In_getOwn o k v :
  NoDup (JsObject.keys o) -> In (k, v) o -> JsObject.getOwn o k = Some v.
Proof.
  induction o as [|[k0 v0] rest IH]; simpl; [tauto|].
  intros Hnd [[= -> ->]|Hin].
  - now rewrite String.eqb_refl.
  - apply NoDup_cons in Hnd as [Hk0 Hnd].
    destruct (String.eqb k0 k) eqn:E; [|now apply IH].
    apply String.eqb_eq in E. subst k0. exfalso. apply Hk0.
    apply list_elem_of_In. change k with (fst (k, v)). now apply in_map.
Qed.

Lemma enumerationOrder_append floor ks k :
  JsString.arrayIndex k = None ->
  enumerationOrder floor ks = true ->
  enumerationOrder floor (ks ++ [k]) = true.
Proof.
  intros Hk. revert floor. induction ks as [|k0 rest IH]; intros floor; simpl.
  - now rewrite Hk.
  - destruct (JsString.arrayIndex k0) as [n0|].
    + rewrite !andb_true_iff. intros [H1 H2]. split; [exact H1|now apply IH].
    + rewrite forallb_app. intros ->. simpl.
      unfold JsString.isArrayIndex. now rewrite Hk.
Qed.

Lemma enumerationOrder_insertIndex floor o k n v :
  JsString.arrayIndex k = Some n -> (floor <= n)%N ->
  enumerationOrder floor (JsObject.keys o) = true ->
  enumerationOrder floor (JsObject.keys (JsObject.insertIndex o k n v)) = true.
Proof.
  intros Hk. revert floor. induction o as [|[k0 v0] rest IH]; intros floor Hfloor; simpl.
  - intros _. rewrite Hk. now apply andb_true_iff, conj; [apply N.leb_le|].
  - destruct (JsString.arrayIndex k0) as [n0|] eqn:H0.
    + rewrite andb_true_iff. intros [H1 H2].
      destruct (n0 <? n)%N eqn:Hlt; simpl.
      * rewrite H0, H1. simpl. apply IH; [|exact H2]. apply N.ltb_lt in Hlt. lia.
      * rewrite Hk, H0. apply N.ltb_ge in Hlt.
        rewrite (proj2 (N.leb_le floor n) Hfloor), (proj2 (N.leb_le n n0) Hlt). exact H2.
    + intros Hrest. simpl. rewrite Hk, H0.
      now rewrite (proj2 (N.leb_le floor n) Hfloor).
Qed.

(** Assignments keep the table in enumeration order. *)
Lemma enumerationOrder_set o k v :
  enumerationOrder 0 (JsObject.keys o) = true ->
  enumerationOrder 0 (JsObject.keys (JsObject.set o k v)) = true.
Proof.
  intros Ho. unfold JsObject.set.
  destruct (String.eqb k "__proto__"); [exact Ho|].
  destruct (JsObject.hasOwnProperty o k); [now rewrite keys_update|].
  destruct (JsString.arrayIndex k) as [n|] eqn:Hk.
  - apply enumerationOrder_insertIndex; [exact Hk|lia|exact Ho].
  - unfold JsObject.keys. rewrite map_app. now apply enumerationOrder_append.
Qed.

End ObjectFacts.

(** ** The languages service *)

Lemma forEach_total {A S : Type} (f : S -> A -> S) (body : S -> A -> Completion S)
    (arr : list A) (s : S) :
  (forall s x, body s x = Return (f s x)) ->
  forEach arr body s = Return (fold_left f arr s).
Proof.
  intros Hbody. revert s.
  induction arr as [|x rest IH]; intros s; simpl; [reflexivity|].
  rewrite Hbody. simpl. apply IH.
Qed.

Lemma checkWord_supported dictionaries lang dictionary word :
  dictionaries !! lang = Some dictionary ->
  Languages.checkWord dictionaries lang word =
  Return {| Languages.result := Dictionary.Boolean (Dictionary.get dictionary word) |}.
Proof. intros H. unfold Languages.checkWord. now rewrite H. Qed.

Lemma Boolean_is_object p : exists b, Dictionary.Boolean p = JsBooleanObject b.
Proof. destruct p; simpl; eauto. Qed.

Lemma checkMultiple_supported dictionaries lang dictionary words :
  dictionaries !! lang = Some dictionary ->
  Languages.checkMultiple dictionaries lang words =
  Return (fold_left
            (fun response word =>
               JsObject.set response word
                 (Dictionary.Boolean (Dictionary.get dictionary word)))
            words JsObject.empty).
Proof.
  intros H. unfold Languages.checkMultiple, Languages.hasOwnProperty. rewrite H. simpl.
  apply forEach_total. intros s x. now rewrite (checkWord_supported _ _ _ _ H).
Qed.

(** What a loop of assignments leaves in an object: the entries it had
    and entries the loop wrote. *)
Lemma In_fold_set {V : Type} (f : string -> V) (words : list string) (o : JsObject V) kv :
  In kv (fold_left (fun o word => JsObject.set o word (f word)) words o) ->
  In kv o \/ (In (fst kv) words /\ snd kv = f (fst kv)).
Proof.
  revert o. induction words as [|w rest IH]; intros o; simpl; [auto|].
  intros H. destruct (IH _ H) as [H1|[H1 H2]]; [|auto].
  destruct (In_set _ _ _ _ H1) as [H3| ->]; auto.
Qed.

Lemma checkMultiple_entries dictionaries lang dictionary words response k v :
  dictionaries !! lang = Some dictionary ->
  Languages.checkMultiple dictionaries lang words = Return response ->
  In (k, v) response ->
  In k words /\ v = Dictionary.Boolean (Dictionary.get dictionary k).
Proof.
  intros H. rewrite (checkMultiple_supported _ _ _ _ H). intros [= <-] Hin.
  apply In_fold_set in Hin as [[]|Hin]. exact Hin.
Qed.

(** ** The scoring action *)

Lemma prefixResults_entries letter words k v :
  In (k, v) (prefixResults letter words) ->
  In k words /\ v = JsBoolean (startsWithLetter letter k).
Proof.
  unfold prefixResults. intros Hin.
  apply In_fold_set in Hin as [[]|Hin]. exact Hin.
Qed.

Lemma get_own (o : JsObject JsValue) k :
  In k (JsObject.keys o) -> In (k, JsObject.get o k) o.
Proof.
  intros H. apply keys_getOwn in H as [v Hv].
  unfold JsObject.get. rewrite Hv. now apply getOwn_In.
Qed.

(** The second loop of [findWordsResults] writes back to every candidate
    the value it already has. *)
Lemma check_loop_fixes_results (checkInDictionary results : JsObject JsValue) ks :
  (forall k v, In (k, v) checkInDictionary -> exists b, v = JsBooleanObject b) ->
  (forall k, In k ks -> In k (JsObject.keys checkInDictionary) /\ In k (JsObject.keys results)) ->
  fold_left
    (fun results word =>
       JsObject.set results word
         (Js.and (JsObject.get checkInDictionary word) (JsObject.get results word)))
    ks results = results.
Proof.
  intros Hobj. induction ks as [|k rest IH]; intros Hks; simpl; [reflexivity|].
  destruct (Hks k (or_introl eq_refl)) as [Hc Hr].
  destruct (Hobj _ _ (get_own _ _ Hc)) as [b Hb].
  rewrite Hb. unfold Js.and. simpl.
  destruct (keys_getOwn _ _ Hr) as [v Hv].
  rewrite (set_same results k); [|unfold JsObject.get; now rewrite Hv].
  apply IH. intros k' Hk'. apply Hks. now right.
Qed.

Lemma getSettings_Return ctx lang level levelSettings :
  Games.getSettings ctx lang level = Return levelSettings ->
  exists dictionary levels,
    dictionaries ctx !! lang = Some dictionary /\
    games ctx !! lang = Some levels /\
    levels !! level = Some levelSettings.
Proof.
  unfold Games.getSettings, Languages.checkLanguage, Languages.hasOwnProperty.
  destruct (dictionaries ctx !! lang) as [dictionary|]; simpl; [|discriminate].
  destruct (games ctx !! lang) as [levels|]; [|discriminate].
  destruct (levels !! level) as [s|] eqn:E; [|discriminate].
  intros [= ->]. eauto.
Qed.

Lemma getSettings_found ctx lang level dictionary levels levelSettings :
  dictionaries ctx !! lang = Some dictionary ->
  games ctx !! lang = Some levels ->
  levels !! level = Some levelSettings ->
  Games.getSettings ctx lang level = Return levelSettings.
Proof.
  intros Hd Hg Hl.
  unfold Games.getSettings, Languages.checkLanguage, Languages.hasOwnProperty.
  now rewrite Hd, Hg, Hl.
Qed.

(** [findWordsResults] once the level is found: the dictionary check
    leaves [results] as the prefix test made it. *)
Lemma findWordsResults_unfold ctx lang level words levelSettings :
  Games.getSettings ctx lang level = Return levelSettings ->
  Games.findWordsResults ctx lang level words =
  let results := prefixResults (LevelSettings.letter levelSettings) words in
  if findWordsIndex levelSettings >? -1 then
    match LevelSettings.steps levelSettings !! Z.to_nat (findWordsIndex levelSettings) with
    | None => Throw TypeError
    | Some step =>
        let! someWords :=
          Languages.someWords (dictionaries ctx)
            (LevelSettings.letter levelSettings) words lang 5 in
        Return {|
          Response.level := Number level;
          Response.success :=
            Js.ge (snd (tally results (Step.rewardPerWord step))) (Num (Step.required step));
          Response.required := Step.required step;
          Response.results := results;
          Response.someWords := someWords;
          Response.score := fst (tally results (Step.rewardPerWord step));
          Response.total_found := snd (tally results (Step.rewardPerWord step));
          Response.type := Step.type step
        |}
    end
  else Throw (Games.levelNotFound lang level).
Proof.
  intros Hs. destruct (getSettings_Return _ _ _ _ Hs) as (dictionary & levels & Hd & _ & _).
  unfold Games.findWordsResults. rewrite Hs. simpl bind.
  fold startsWithLetter.
  change (fold_left _ words JsObject.empty)
    with (prefixResults (LevelSettings.letter levelSettings) words).
  set (results := prefixResults (LevelSettings.letter levelSettings) words).
  rewrite (checkMultiple_supported _ _ _ _ Hd). simpl bind.
  match goal with
  | |- context [fold_left ?f (JsObject.keys ?c) results] =>
      assert (Hfix : fold_left f (JsObject.keys c) results = results)
  end.
  { apply check_loop_fixes_results.
    - intros k v Hin. apply In_fold_set in Hin as [[]|[_ Hv]].
      simpl in Hv. rewrite Hv. apply Boolean_is_object.
    - intros k Hk. split; [exact Hk|].
      unfold JsObject.keys in Hk. apply in_map_iff in Hk as ([k' v] & <- & Hin).
      apply In_fold_set in Hin as [[]|[Hin _]].
      apply filter_In in Hin as [Hin _]. exact Hin. }
  rewrite Hfix. fold (findWordsIndex levelSettings).
  destruct (findWordsIndex levelSettings >? -1); [|reflexivity].
  destruct (LevelSettings.steps levelSettings !! Z.to_nat (findWordsIndex levelSettings))
    as [step|]; [|reflexivity].
  unfold tally, tally_step.
  match goal with
  | |- context [fold_left ?f (JsObject.keys results) ?init] =>
      destruct (fold_left f (JsObject.keys results) init)
  end.
  reflexivity.
Qed.

Lemma prefixResults_NoDup letter words :
  NoDup (JsObject.keys (prefixResults letter words)).
Proof. apply NoDup_keys_fold_set. constructor. Qed.

(** The third loop on entries that hold booleans: both accumulators grow
    together. *)
Lemma tally_fold (results : JsObject JsValue) reward entries a :
  (forall k v, In (k, v) entries ->
     JsObject.get results k = v /\ exists b, v = JsBoolean b) ->
  fold_left (tally_step results reward) (map fst entries) (Num (a * reward), Num a) =
  (Num ((a + countValid entries) * reward), Num (a + countValid entries)).
Proof.
  revert a. induction entries as [|[k v] rest IH]; intros a Hall; simpl.
  - unfold countValid. simpl. now rewrite Z.add_0_r.
  - destruct (Hall k v (or_introl eq_refl)) as [Hget [b ->]].
    rewrite Hget. simpl.
    replace (a * reward + (if b then 1 else 0) * reward)
      with ((a + (if b then 1 else 0)) * reward) by ring.
    rewrite IH by (intros; apply Hall; now right).
    unfold countValid. simpl. destruct b; simpl length.
    + rewrite Nat2Z.inj_succ. do 2 f_equal; lia.
    + do 2 f_equal; lia.
Qed.

Lemma tally_prefixResults letter words reward :
  tally (prefixResults letter words) reward =
  (Num (countValid (prefixResults letter words) * reward),
   Num (countValid (prefixResults letter words))).
Proof.
  unfold tally, JsObject.keys.
  change (Num 0, Num 0) with (Num (0 * reward), Num 0).
  rewrite tally_fold; [reflexivity|].
  intros k v Hin. split.
  - unfold JsObject.get. now rewrite (In_getOwn _ _ _ (prefixResults_NoDup _ _) Hin).
  - apply prefixResults_entries in Hin as [_ ->]. eauto.
Qed.

(** ** Loops of assignments *)

Section AssignmentLoops.
Context {V : Type} (f : string -> V).

Local Abbreviation loop := (assignAll f).

Lemma getOwn_loop_other words o k :
  ~ In k words -> JsObject.getOwn (loop words o) k = JsObject.getOwn o k.
Proof.
  revert o. induction words as [|w rest IH]; intros o Hk; simpl; [reflexivity|].
  rewrite IH by (intros H; apply Hk; now right).
  destruct (string_dec w "__proto__") as [->|Hw]; [reflexivity|].
  rewrite getOwn_set by exact Hw.
  destruct (String.eqb w k) eqn:E; [|reflexivity].
  apply String.eqb_eq in E. exfalso. apply Hk. now left.
Qed.

(** Every word of the loop other than ["__proto__"] ends up with the
    value the loop writes for it. *)
Lemma getOwn_loop words o k :
  In k words -> k <> "__proto__" ->
  JsObject.getOwn (loop words o) k = Some (f k).
Proof.
  revert o. induction words as [|w rest IH]; intros o Hk Hp; simpl; [destruct Hk|].
  destruct (in_dec string_dec k rest) as [Hin|Hout]; [now apply IH|].
  destruct Hk as [->|Hk]; [|contradiction].
  fold (loop rest (JsObject.set o k (f k))).
  rewrite getOwn_loop_other by exact Hout.
  rewrite getOwn_set by exact Hp. now rewrite String.eqb_refl.
Qed.

(** Ordinary keys are listed in the order of their first assignment. *)
Lemma keys_loop_ordinary words o :
  Forall (fun word => ordinaryKey word = true) words ->
  JsObject.keys (loop words o) =
  (JsObject.keys o ++ firstOccurrences (JsObject.keys o) words)%list.
Proof.
  revert o. induction words as [|w rest IH]; intros o Hall; simpl.
  - now rewrite app_nil_r.
  - apply Forall_cons in Hall as [Hw Hrest].
    fold (loop rest (JsObject.set o w (f w))).
    rewrite (IH _ Hrest), (keys_set_ordinary _ _ _ Hw).
    destruct (existsb (String.eqb w) (JsObject.keys o)); [reflexivity|].
    now rewrite <- app_assoc.
Qed.

Lemma getOwn_loop_proto words o :
  JsObject.getOwn (loop words o) "__proto__" = JsObject.getOwn o "__proto__".
Proof.
  revert o. induction words as [|w rest IH]; intros o; simpl; [reflexivity|].
  fold (loop rest (JsObject.set o w (f w))). rewrite IH.
  destruct (string_dec w "__proto__") as [->|Hw]; [reflexivity|].
  rewrite getOwn_set by exact Hw.
  destruct (String.eqb w "__proto__") eqn:E; [|reflexivity].
  apply String.eqb_eq in E. contradiction.
Qed.

(** The keys a loop of assignments leaves in a fresh object: the words
    of the loop other than ["__proto__"]. *)
Lemma keys_loop_fresh words k :
  In k (JsObject.keys (loop words JsObject.empty)) <-> In k words /\ k <> "__proto__".
Proof.
  split.
  - intros Hin. apply keys_getOwn in Hin as [v Hv]. split.
    + destruct (in_dec string_dec k words) as [H|H]; [exact H|].
      rewrite getOwn_loop_other in Hv by exact H. discriminate.
    + intros ->. rewrite getOwn_loop_proto in Hv. discriminate.
  - intros [Hin Hp].
    destruct (in_dec string_dec k (JsObject.keys (loop words JsObject.empty))) as [H|H];
      [exact H|].
    apply getOwn_None_keys in H. rewrite getOwn_loop in H by assumption. discriminate.
Qed.

Lemma enumerationOrder_loop words o :
  enumerationOrder 0 (JsObject.keys o) = true ->
  enumerationOrder 0 (JsObject.keys (loop words o)) = true.
Proof.
  revert o. induction words as [|w rest IH]; intros o Ho; simpl; [exact Ho|].
  apply IH, enumerationOrder_set, Ho.
Qed.

End AssignmentLoops.

(** ** Distinct spellings *)

Lemma existsb_eqb_In word seen : existsb (String.eqb word) seen = true <-> In word seen.
Proof.
  rewrite existsb_exists. split.
  - intros (x & Hx & E). apply String.eqb_eq in E. now subst.
  - intros H. exists word. split; [exact H|apply String.eqb_refl].
Qed.

Lemma In_firstOccurrences seen words word :
  In word (firstOccurrences seen words) <-> In word words /\ ~ In word seen.
Proof.
  revert seen. induction words as [|w rest IH]; intros seen; simpl; [tauto|].
  destruct (existsb (String.eqb w) seen) eqn:E.
  - apply existsb_eqb_In in E. rewrite IH. split; [tauto|].
    intros [[->|H] Hn]; [contradiction|tauto].
  - assert (Hw : ~ In w seen) by (rewrite <- existsb_eqb_In; congruence).
    simpl. rewrite IH, in_app_iff. simpl.
    destruct (string_dec w word) as [->|Hne]; [tauto|]. tauto.
Qed.

Lemma NoDup_firstOccurrences seen words : NoDup (firstOccurrences seen words).
Proof.
  revert seen. induction words as [|w rest IH]; intros seen; simpl; [constructor|].
  destruct (existsb (String.eqb w) seen); [apply IH|].
  apply NoDup_cons. split; [|apply IH].
  rewrite list_elem_of_In, In_firstOccurrences, in_app_iff. simpl. tauto.
Qed.

(** [distinctSpellings] lists exactly the submitted spellings, each once. *)
Lemma distinctSpellings_spec words :
  NoDup (distinctSpellings words) /\
  forall word, In word (distinctSpellings words) <-> In word words.
Proof.
  split; [apply NoDup_firstOccurrences|].
  intros word. unfold distinctSpellings. rewrite In_firstOccurrences. simpl. tauto.
Qed.

(** ** Dictionary membership *)

(** C8.  For a supported language, [checkWord] answers every word with a
    [Boolean] wrapper object, a truthy value, also when the word is not in
    the dictionary (the wrapper then holds [false]); so every value of the
    object that [checkMultiple] returns is a truthy wrapper object, never
    the primitive [false], and every submitted word other than
    ["__proto__"] has such a value. *)
Theorem checkWord_result_is_always_truthy dictionaries lang :
  Languages.hasOwnProperty dictionaries lang = true ->
  (forall word, exists b,
      Languages.checkWord dictionaries lang word =
        Return {| Languages.result := JsBooleanObject b |} /\
      Js.ToBoolean (JsBooleanObject b) = true) /\
  (forall dictionary word,
      dictionaries !! lang = Some dictionary ->
      Dictionary.get dictionary word = Dictionary.Undefined ->
      Languages.checkWord dictionaries lang word =
        Return {| Languages.result := JsBooleanObject false |}) /\
  (forall words, exists response,
      Languages.checkMultiple dictionaries lang words = Return response /\
      (forall word v, In (word, v) response ->
         (exists b, v = JsBooleanObject b) /\
         Js.ToBoolean v = true /\ v <> JsBoolean false) /\
      (forall word, In word words -> word <> "__proto__" ->
         exists b, JsObject.getOwn response word = Some (JsBooleanObject b))).
Proof.
  unfold Languages.hasOwnProperty.
  destruct (dictionaries !! lang) as [dictionary|] eqn:Hd; [intros _|discriminate].
  split; [|split].
  - intros word. rewrite (checkWord_supported _ _ _ _ Hd).
    destruct (Boolean_is_object (Dictionary.get dictionary word)) as [b ->]. eauto.
  - intros d word [= <-] Hu. rewrite (checkWord_supported _ _ _ _ Hd), Hu. reflexivity.
  - intros words. eexists. split; [apply (checkMultiple_supported _ _ _ _ Hd)|]. split.
    + intros word v Hin. apply In_fold_set in Hin as [[]|[_ Hv]]. simpl in Hv.
      destruct (Boolean_is_object (Dictionary.get dictionary word)) as [b Hb].
      rewrite Hv, Hb. split; [eauto|]. split; [reflexivity|discriminate].
    + intros word Hin Hp.
      destruct (Boolean_is_object (Dictionary.get dictionary word)) as [b Hb].
      exists b. rewrite <- Hb.
      apply (getOwn_loop (fun word => Dictionary.Boolean (Dictionary.get dictionary word)));
        assumption.
Qed.

Lemma checkWord_result_is_always_truthy_witness :
  Languages.hasOwnProperty (dictionaries Sample.ctx) "en" = true /\
  exists response,
    Languages.checkMultiple (dictionaries Sample.ctx) "en" ["apple"; "zzz"] = Return response /\
    exists b, JsObject.getOwn response "zzz" = Some (JsBooleanObject b).
Proof.
  split; [vm_compute; reflexivity|].
  destruct (checkWord_result_is_always_truthy (dictionaries Sample.ctx) "en")
    as (_ & _ & Hmany); [vm_compute; reflexivity|].
  destruct (Hmany ["apple"; "zzz"]) as (response & Hr & _ & Hown).
  exists response. split; [exact Hr|].
  apply Hown; [simpl; tauto|discriminate].
Defined.

(** ** The scoring result *)

(** What [findWordsResults] returns, field by field. *)
Lemma findWordsResults_Return ctx lang level words r :
  Games.findWordsResults ctx lang level words = Return r ->
  exists levelSettings step,
    Games.getSettings ctx lang level = Return levelSettings /\
    0 <= findWordsIndex levelSettings /\
    LevelSettings.steps levelSettings !! Z.to_nat (findWordsIndex levelSettings) = Some step /\
    Languages.someWords (dictionaries ctx) (LevelSettings.letter levelSettings) words lang 5
      = Return (Response.someWords r) /\
    Response.results r = prefixResults (LevelSettings.letter levelSettings) words /\
    Response.total_found r = Num (countValid (Response.results r)) /\
    Response.score r = Num (countValid (Response.results r) * Step.rewardPerWord step) /\
    Response.success r = (Step.required step <=? countValid (Response.results r)) /\
    Response.required r = Step.required step /\
    Response.type r = Step.type step /\
    Response.level r = Number level.
Proof.
  intros Hr.
  destruct (Games.getSettings ctx lang level) as [levelSettings|e] eqn:Hs;
    [|unfold Games.findWordsResults in Hr; rewrite Hs in Hr; discriminate].
  rewrite (findWordsResults_unfold _ _ _ _ _ Hs) in Hr. cbv zeta in Hr.
  destruct (findWordsIndex levelSettings >? -1) eqn:Hi; [|discriminate].
  destruct (LevelSettings.steps levelSettings !! Z.to_nat (findWordsIndex levelSettings))
    as [step|] eqn:Hstep; [|discriminate].
  destruct (Languages.someWords _ _ _ _ _) as [some|e] eqn:Hsome; [|discriminate].
  simpl in Hr. injection Hr as <-. simpl.
  rewrite tally_prefixResults. simpl.
  exists levelSettings, step. repeat split; try reflexivity; try assumption. lia.
Qed.

(** Every step found by tag is tagged [findWords]. *)
Lemma findIndex_found {A : Type} (p : A -> bool) (arr : list A) x :
  0 <= Js.findIndex p arr ->
  arr !! Z.to_nat (Js.findIndex p arr) = Some x ->
  p x = true /\ forall j y, (j < Z.to_nat (Js.findIndex p arr))%nat -> arr !! j = Some y -> p y = false.
Proof.
  revert x. induction arr as [|a rest IH]; intros x; simpl; [lia|].
  destruct (p a) eqn:Hp.
  - simpl. intros _ [= <-]. split; [exact Hp|]. intros j y Hj. lia.
  - destruct (Js.findIndex p rest <? 0) eqn:Hneg; [lia|]. intros _.
    apply Z.ltb_ge in Hneg.
    replace (Z.to_nat (Js.findIndex p rest + 1)) with (S (Z.to_nat (Js.findIndex p rest))) by lia.
    simpl. intros Hx. destruct (IH x Hneg Hx) as [Hpx Hbefore]. split; [exact Hpx|].
    intros [|j] y Hj; simpl.
    + now intros [= <-].
    + apply Hbefore. lia.
Qed.

(** The entries of [results] are as many as its keys, which are among
    the submitted words. *)
Lemma countValid_bounds letter words :
  0 <= countValid (prefixResults letter words) <= Z.of_nat (length words).
Proof.
  unfold countValid. split; [lia|]. apply Nat2Z.inj_le.
  etransitivity; [apply filter_length_le|].
  rewrite <- (length_map fst).
  apply List.NoDup_incl_length; [apply NoDup_ListNoDup, prefixResults_NoDup|].
  intros word Hin. apply keys_getOwn in Hin as [v Hv]. apply getOwn_In in Hv.
  now apply prefixResults_entries in Hv as [Hin _].
Qed.

(** C9, as the code has it.  [total_found] is the number of valid
    entries of [results], and [score] adds the [rewardPerWord] of the
    first step tagged [findWords] once for each of them.  For a reward
    that is an integer, with the number of submitted words times the
    reward within 2^53 in magnitude, every sum on the way is an integer
    within 2^53, where the numbers of JavaScript are exact, and [score]
    is [total_found] multiplied by the reward. *)
Theorem score_is_total_found_times_reward ctx lang level words r levelSettings step :
  Games.findWordsResults ctx lang level words = Return r ->
  Games.getSettings ctx lang level = Return levelSettings ->
  LevelSettings.steps levelSettings !! Z.to_nat (findWordsIndex levelSettings) = Some step ->
  Z.of_nat (length words) * Z.abs (Step.rewardPerWord step) <= 2 ^ 53 ->
  Step.type step = "findWords" /\
  Response.total_found r = Num (countValid (Response.results r)) /\
  Response.score r =
    Num (countValid (Response.results r) * Step.rewardPerWord step) /\
  forall partial, 0 <= partial <= countValid (Response.results r) ->
    Z.abs (partial * Step.rewardPerWord step) <= 2 ^ 53.
Proof.
  intros Hr Hs Hstep Hbound.
  destruct (findWordsResults_Return _ _ _ _ _ Hr)
    as (levelSettings' & step' & Hs' & Hi & Hstep' & _ & Hres & Htotal & Hscore & _).
  rewrite Hs in Hs'. injection Hs' as <-. rewrite Hstep in Hstep'. injection Hstep' as <-.
  split; [apply String.eqb_eq; exact (proj1 (findIndex_found _ _ _ Hi Hstep))|].
  split; [exact Htotal|]. split; [exact Hscore|].
  intros partial Hpartial.
  pose proof (countValid_bounds (LevelSettings.letter levelSettings) words) as Hcount.
  rewrite <- Hres in Hcount. rewrite Z.abs_mul, (Z.abs_eq partial) by lia.
  etransitivity; [|exact Hbound].
  apply Z.mul_le_mono_nonneg_r; [apply Z.abs_nonneg|lia].
Qed.

Lemma score_is_total_found_times_reward_witness :
  Games.findWordsResults Sample.ctx "en" "1" ["apple"; "ant"; "banana"; "Apple"]
    = Return Sample.response /\
  Z.of_nat (length ["apple"; "ant"; "banana"; "Apple"]) * Z.abs 10 <= 2 ^ 53 /\
  Response.total_found Sample.response = Num (countValid (Response.results Sample.response)) /\
  Response.score Sample.response = Num (countValid (Response.results Sample.response) * 10).
Proof.
  split; [vm_compute; reflexivity|]. split; [vm_compute; discriminate|].
  destruct (score_is_total_found_times_reward Sample.ctx "en" "1"
              ["apple"; "ant"; "banana"; "Apple"] Sample.response Sample.level1
              {| Step.type := "findWords"; Step.rewardPerWord := 10; Step.required := 2 |})
    as (_ & Htotal & Hscore & _).
  - vm_compute. reflexivity.
  - vm_compute. reflexivity.
  - reflexivity.
  - vm_compute. discriminate.
  - split; [exact Htotal|exact Hscore].
Defined.

(** C9, the claim as stated fails: for the six valid words of this
    submission, the loop run with a [rewardPerWord] of 0.1 counts 6 and
    adds up a score that is not 6 times 0.1. *)
Lemma score_differs_from_the_product_in_doubles :
  exists r,
    Games.findWordsResults Sample.ctx "en" "1" Sample.sixWords = Return r /\
    Response.total_found r = Num 6 /\
    Double.strictEquals (snd (Double.tally (Response.results r) Double.tenth)) Double.six
      = true /\
    Double.strictEquals
      (fst (Double.tally (Response.results r) Double.tenth))
      (PrimFloat.mul (snd (Double.tally (Response.results r) Double.tenth)) Double.tenth)
      = false.
Proof.
  eexists. split; [vm_compute; reflexivity|].
  split; [reflexivity|]. split; vm_compute; reflexivity.
Qed.

(** ** Failures of a request *)

Lemma findIndex_none {A : Type} (p : A -> bool) (arr : list A) :
  Forall (fun x => p x = false) arr -> Js.findIndex p arr = -1.
Proof.
  induction 1 as [|x rest Hx _ IH]; simpl; [reflexivity|].
  now rewrite Hx, IH.
Qed.

(** The two client errors never coincide: their [data] names a
    different field. *)
Lemma notSupported_is_not_levelNotFound lang lang' level :
  Languages.notSupported lang <> Games.levelNotFound lang' level.
Proof. unfold Languages.notSupported, Games.levelNotFound. intros [= _ H]. Qed.

Lemma getSettings_unsupported ctx lang level :
  Languages.checkLanguage (dictionaries ctx) lang = false ->
  Games.getSettings ctx lang level = Throw (Languages.notSupported lang).
Proof. intros H. unfold Games.getSettings. now rewrite H. Qed.

Lemma getSettings_level_absent ctx lang level levels :
  Languages.checkLanguage (dictionaries ctx) lang = true ->
  games ctx !! lang = Some levels ->
  levels !! level = None ->
  Games.getSettings ctx lang level = Throw (Games.levelNotFound lang level).
Proof. intros H Hg Hl. unfold Games.getSettings. now rewrite H, Hg, Hl. Qed.






(** C6, at the failing input: [en] is a supported language and the level
    registry records no level 1 for it, having loaded no level file for
    [en]; the request fails with a [TypeError], not with the "level does
    not exist" client error. *)
Theorem supported_language_without_levels_fails_untyped :
  Languages.checkLanguage (dictionaries Sample.unregistered) "en" = true /\
  (forall levels, games Sample.unregistered !! "en" = Some levels -> levels !! "1" = None) /\
  Games.getSettings Sample.unregistered "en" "1" = Throw TypeError /\
  Games.findWordsResults Sample.unregistered "en" "1" ["apple"] = Throw TypeError /\
  Games.getSettings Sample.unregistered "en" "1" <> Throw (Games.levelNotFound "en" "1").
Proof.
  split; [vm_compute; reflexivity|]. split; [intros levels; vm_compute; discriminate|].
  split; [vm_compute; reflexivity|]. split; [vm_compute; reflexivity|].
  vm_compute. discriminate.
Qed.

(** C4, as the code has it.  On a supported language and an existing
    level whose steps hold none tagged [findWords], [findWordsResults]
    throws the client error of [getSettings] for an absent level: the
    same message, code 404, type and data. *)
Theorem level_without_findWords_step_fails_as_level_not_found
    ctx lang level words levelSettings :
  Games.getSettings ctx lang level = Return levelSettings ->
  Forall (fun step => Step.type step <> "findWords") (LevelSettings.steps levelSettings) ->
  Games.findWordsResults ctx lang level words = Throw (Games.levelNotFound lang level).
Proof.
  intros Hs Hnone. rewrite (findWordsResults_unfold _ _ _ _ _ Hs). cbv zeta.
  unfold findWordsIndex. rewrite findIndex_none; [reflexivity|].
  eapply Forall_impl; [exact Hnone|]. intros step Hstep. now apply String.eqb_neq.
Qed.

Lemma level_without_findWords_step_fails_as_level_not_found_witness :
  Games.getSettings Sample.ctx "en" "2" = Return Sample.level2 /\
  Forall (fun step => Step.type step <> "findWords") (LevelSettings.steps Sample.level2) /\
  Games.findWordsResults Sample.ctx "en" "2" ["bee"] = Throw (Games.levelNotFound "en" "2").
Proof.
  assert (Hsteps : Forall (fun step => Step.type step <> "findWords")
                          (LevelSettings.steps Sample.level2)).
  { repeat constructor. simpl. discriminate. }
  split; [vm_compute; reflexivity|]. split; [exact Hsteps|].
  apply (level_without_findWords_step_fails_as_level_not_found Sample.ctx "en" "2" ["bee"]
           Sample.level2); [vm_compute; reflexivity|exact Hsteps].
Defined.

(** C4, the claim as stated fails: level 2 of [en] exists and has no
    [findWords] step, and the request fails exactly as the same request
    does on a store where level 2 is absent. *)
Lemma misconfigured_level_is_not_told_apart :
  Games.getSettings Sample.ctx "en" "2" = Return Sample.level2 /\
  findWordsIndex Sample.level2 = -1 /\
  Games.getSettings Sample.bare "en" "2" = Throw (Games.levelNotFound "en" "2") /\
  Games.findWordsResults Sample.ctx "en" "2" ["bee"] =
  Games.findWordsResults Sample.bare "en" "2" ["bee"] /\
  ~ (exists e, Games.findWordsResults Sample.ctx "en" "2" ["bee"] = Throw e /\
               e <> Games.levelNotFound "en" "2").
Proof.
  repeat split; try (vm_compute; reflexivity).
  intros (e & He & Hne). vm_compute in He. injection He as <-. now apply Hne.
Qed.

(** ** Suggestions *)

(** C3.  In every response of [findWordsResults], [someWords] is what
    [languages.someWords] answers to the request for 5 words with the
    level's letter as prefix and the whole submission as exclusion list:
    at most 5 words, each starting with the letter when case is ignored,
    none equal to a submitted word when case is ignored. *)
Theorem someWords_are_five_fresh_words_with_the_letter ctx lang level words r :
  Games.findWordsResults ctx lang level words = Return r ->
  exists levelSettings,
    Games.getSettings ctx lang level = Return levelSettings /\
    Languages.someWords (dictionaries ctx) (LevelSettings.letter levelSettings) words lang 5
      = Return (Response.someWords r) /\
    (length (Response.someWords r) <= 5)%nat /\
    (forall word, In word (Response.someWords r) ->
       startsWithLetter (LevelSettings.letter levelSettings) word = true) /\
    (forall word tried, In word (Response.someWords r) -> In tried words ->
       JsString.toLowerCase tried <> JsString.toLowerCase word).
Proof.
  intros Hr.
  destruct (findWordsResults_Return _ _ _ _ _ Hr)
    as (levelSettings & step & Hs & _ & _ & Hsome & _).
  exists levelSettings. split; [exact Hs|]. split; [exact Hsome|].
  unfold Languages.someWords in Hsome.
  destruct (dictionaries ctx !! lang) as [dictionary|]; [|discriminate].
  injection Hsome as Hsome. rewrite <- Hsome. split; [|split].
  - rewrite length_take. lia.
  - intros word Hin. apply list_elem_of_In, subseteq_take in Hin.
    apply list_elem_of_filter in Hin as [Hc _].
    apply andb_true_iff in Hc as [Hc _]. exact Hc.
  - intros word tried Hin Htried.
    apply list_elem_of_In, subseteq_take in Hin.
    apply list_elem_of_filter in Hin as [Hc _].
    apply andb_true_iff in Hc as [_ Hc]. apply negb_true_iff in Hc.
    intros Heq. apply not_true_iff_false in Hc. apply Hc.
    apply existsb_exists. exists tried. split; [exact Htried|].
    now apply String.eqb_eq.
Qed.

Lemma someWords_are_five_fresh_words_with_the_letter_witness :
  Games.findWordsResults Sample.ctx "en" "1" ["azzz"] = Return Sample.suggesting /\
  exists levelSettings,
    Games.getSettings Sample.ctx "en" "1" = Return levelSettings /\
    Languages.someWords (dictionaries Sample.ctx) (LevelSettings.letter levelSettings)
      ["azzz"] "en" 5 = Return (Response.someWords Sample.suggesting) /\
    (length (Response.someWords Sample.suggesting) <= 5)%nat /\
    (forall word, In word (Response.someWords Sample.suggesting) ->
       startsWithLetter (LevelSettings.letter levelSettings) word = true) /\
    (forall word tried, In word (Response.someWords Sample.suggesting) ->
       In tried ["azzz"] ->
       JsString.toLowerCase tried <> JsString.toLowerCase word).
Proof.
  split; [vm_compute; reflexivity|].
  apply (someWords_are_five_fresh_words_with_the_letter Sample.ctx "en" "1" ["azzz"]).
  vm_compute. reflexivity.
Defined.

(** ** Validity of a word *)

(** C1, at the failing input.  The word [azzz] starts with the letter of
    level 1 and is not in the dictionary of [en]: [checkWord] wraps
    [false] for it, and the response records it as valid and scores it. *)
Theorem word_outside_the_dictionary_is_scored_valid :
  Sample.en !! "azzz" = None /\
  Languages.checkWord (dictionaries Sample.ctx) "en" "azzz" =
    Return {| Languages.result := JsBooleanObject false |} /\
  Games.findWordsResults Sample.ctx "en" "1" ["azzz"] = Return Sample.suggesting /\
  Response.results Sample.suggesting = [("azzz", JsBoolean true)] /\
  Response.total_found Sample.suggesting = Num 1 /\
  Response.score Sample.suggesting = Num 10.
Proof. repeat split; vm_compute; reflexivity. Qed.

(** The validity that [findWordsResults] records is the prefix test. *)
Lemma validity_is_the_prefix_test ctx lang level words r word :
  Games.findWordsResults ctx lang level words = Return r ->
  In word words -> word <> "__proto__" ->
  exists levelSettings,
    Games.getSettings ctx lang level = Return levelSettings /\
    JsObject.getOwn (Response.results r) word =
      Some (JsBoolean (startsWithLetter (LevelSettings.letter levelSettings) word)).
Proof.
  intros Hr Hin Hp.
  destruct (findWordsResults_Return _ _ _ _ _ Hr)
    as (levelSettings & step & Hs & _ & _ & _ & Hres & _).
  exists levelSettings. split; [exact Hs|]. rewrite Hres.
  apply (getOwn_loop (fun word =>
           JsBoolean (startsWithLetter (LevelSettings.letter levelSettings) word)));
    assumption.
Qed.

(** Every language that [created] leaves in an empty store is the
    object parsed from a file it read, stored under that file's code as
    it was parsed. *)
Lemma created_origin directory dictionaries lang dictionary :
  fst (Languages.created directory dictionaries) !! lang = Some dictionary ->
  (exists entry,
      In entry directory /\ dictionaryFile entry = true /\
      languageCode entry = lang /\ Languages.parsed entry = Some dictionary) \/
  dictionaries !! lang = Some dictionary.
Proof.
  revert dictionaries. induction directory as [|entry rest IH]; intros dictionaries;
    [now right|].
  simpl. fold (dictionaryFile entry). destruct (dictionaryFile entry) eqn:Hf.
  - destruct (Languages.parsed entry) as [words|] eqn:Hp; [|now right].
    fold (languageCode entry). intros H. destruct (IH _ H) as [(e & He & H')|H'].
    + left. exists e. split; [now right|exact H'].
    + unfold Languages.assign in H'.
      destruct (String.eqb (languageCode entry) "__proto__"); [now right|].
      destruct (string_dec (languageCode entry) lang) as [Heq|Hne].
      * subst lang. rewrite lookup_insert_eq in H'. injection H' as <-.
        left. exists entry. split; [now left|]. repeat split; assumption.
      * rewrite lookup_insert_ne in H' by exact Hne. now right.
  - intros H. destruct (IH _ H) as [(e & He & H')|H']; [|now right].
    left. exists e. split; [now right|exact H'].
Qed.

(** C2, as the code has it.  A language that [created] loaded holds the
    object parsed from its file, with no key put in lower case; and for
    a word that names no property inherited from [Object.prototype],
    [check] wraps [true] exactly when that object holds a truthy value
    under the word as it is spelled. *)
Theorem contains_looks_up_the_exact_spelling directory lang dictionary word :
  fst (Languages.created directory ∅) !! lang = Some dictionary ->
  ~ In word Dictionary.Object_prototype ->
  (exists entry,
      In entry directory /\ dictionaryFile entry = true /\
      languageCode entry = lang /\ Languages.parsed entry = Some dictionary) /\
  (contains (fst (Languages.created directory ∅)) lang word = Some true <->
   exists v, dictionary !! word = Some v /\ Dictionary.truthy v = true).
Proof.
  intros Hd Hword. split.
  - destruct (created_origin _ _ _ _ Hd) as [H|H]; [exact H|].
    rewrite lookup_empty in H. discriminate.
  - assert (Hc : contains (fst (Languages.created directory ∅)) lang word
                 = Some (holds dictionary word)).
    { unfold contains, Languages.check, Languages.hasOwnProperty. rewrite Hd. simpl.
      rewrite (checkWord_supported _ _ _ _ Hd). simpl. unfold holds.
      now destruct (Dictionary.get dictionary word). }
    rewrite Hc. unfold holds, Dictionary.get.
    destruct (dictionary !! word) as [v|] eqn:Hw.
    + split.
      * intros [= Hv]. eauto.
      * intros (v' & [= <-] & Hv). now rewrite Hv.
    + destruct (existsb (String.eqb word) Dictionary.Object_prototype) eqn:Hi.
      * apply existsb_eqb_In in Hi. contradiction.
      * split; [discriminate|]. intros (v' & [=] & _).
Qed.

Lemma contains_looks_up_the_exact_spelling_witness :
  fst (Languages.created (tail Sample.directory) ∅) !! "en" = Some Sample.en /\
  ~ In "Apple" Dictionary.Object_prototype /\
  (contains (fst (Languages.created (tail Sample.directory) ∅)) "en" "Apple" = Some true <->
   exists v, Sample.en !! "Apple" = Some v /\ Dictionary.truthy v = true) /\
  contains (fst (Languages.created (tail Sample.directory) ∅)) "en" "Apple" = Some false /\
  contains (fst (Languages.created (tail Sample.directory) ∅)) "en" "apple" = Some true.
Proof.
  assert (Hd : fst (Languages.created (tail Sample.directory) ∅) !! "en" = Some Sample.en)
    by (vm_compute; reflexivity).
  assert (Hw : ~ In "Apple" Dictionary.Object_prototype).
  { unfold Dictionary.Object_prototype. simpl.
    intros H. repeat (destruct H as [H|H]; [discriminate|]). exact H. }
  split; [exact Hd|]. split; [exact Hw|].
  split; [|split; vm_compute; reflexivity].
  exact (proj2 (contains_looks_up_the_exact_spelling (tail Sample.directory) "en"
                  Sample.en "Apple" Hd Hw)).
Defined.

(** C2, the claim as stated fails: [apple] is in the word set loaded for
    [en], and [check] answers [Apple] with a wrapper of [false].  Read as
    a JavaScript truth value the answer fails the claim the other way:
    it is truthy for [zzz], whose lower case is not in the word set. *)
Lemma membership_is_case_sensitive :
  ~ (contains (dictionaries Sample.ctx) "en" "Apple" = Some true <->
     is_Some (Sample.en !! JsString.toLowerCase "Apple")) /\
  (exists checked,
     Languages.check (dictionaries Sample.ctx) "en" "zzz" = Return checked /\
     Js.ToBoolean (Languages.result checked) = true /\
     Sample.en !! JsString.toLowerCase "zzz" = None).
Proof.
  split.
  - intros [_ H]. assert (Hin : is_Some (Sample.en !! JsString.toLowerCase "Apple")).
    { exists (JNum 1). vm_compute. reflexivity. }
    specialize (H Hin). vm_compute in H. discriminate.
  - eexists. split; [vm_compute; reflexivity|]. split; vm_compute; reflexivity.
Qed.

(** ** Loading the dictionaries *)

Lemma created_app before after dictionaries :
  Languages.created (before ++ after) dictionaries =
  match Languages.created before dictionaries with
  | (loaded, Return _) => Languages.created after loaded
  | (loaded, Throw e) => (loaded, Throw e)
  end.
Proof.
  revert dictionaries. induction before as [|entry rest IH]; intros dictionaries; simpl.
  - reflexivity.
  - destruct (Languages.isFile entry && JsString.endsWith (Languages.name entry) ".json")%bool.
    + destruct (Languages.parsed entry); [apply IH|reflexivity].
    + apply IH.
Qed.

(** A file that parses is stored as parsed, under its name without the
    first [.json]. *)
Lemma created_stores_file_as_parsed entry words dictionaries :
  Languages.isFile entry = true ->
  JsString.endsWith (Languages.name entry) ".json" = true ->
  Languages.parsed entry = Some words ->
  Languages.created [entry] dictionaries =
  (Languages.assign dictionaries (JsString.replace (Languages.name entry) ".json" "") words,
   Return tt).
Proof. intros Hf Hn Hp. simpl. now rewrite Hf, Hn, Hp. Qed.

(** A directory whose [.json] files all parse is loaded to its end. *)
Lemma created_completes directory dictionaries :
  Forall (fun entry =>
            Languages.isFile entry = true ->
            JsString.endsWith (Languages.name entry) ".json" = true ->
            Languages.parsed entry <> None) directory ->
  snd (Languages.created directory dictionaries) = Return tt.
Proof.
  intros Hall. revert dictionaries.
  induction Hall as [|entry rest Hentry _ IH]; intros dictionaries; simpl; [reflexivity|].
  destruct (Languages.isFile entry) eqn:Hf; simpl; [|apply IH].
  destruct (JsString.endsWith (Languages.name entry) ".json") eqn:Hn; [|apply IH].
  destruct (Languages.parsed entry) eqn:Hp; [apply IH|].
  now destruct (Hentry eq_refl eq_refl).
Qed.

(** C5, as the code has it.  [created] stops with a [SyntaxError] at the
    first [.json] file that does not parse: the service is left with the
    dictionaries of the files read before it, and no file after it is
    read. *)
Theorem created_stops_at_the_first_malformed_file
    before malformed after dictionaries loaded :
  Languages.created before dictionaries = (loaded, Return tt) ->
  Languages.isFile malformed = true ->
  JsString.endsWith (Languages.name malformed) ".json" = true ->
  Languages.parsed malformed = None ->
  Languages.created (before ++ malformed :: after) dictionaries = (loaded, Throw SyntaxError).
Proof.
  intros Hbefore Hf Hn Hp. rewrite created_app, Hbefore. simpl.
  now rewrite Hf, Hn, Hp.
Qed.

Lemma created_stops_at_the_first_malformed_file_witness :
  Languages.created [] ∅ = (∅, Return tt) /\
  Languages.created Sample.directory ∅ = (∅, Throw SyntaxError).
Proof.
  split; [reflexivity|].
  apply (created_stops_at_the_first_malformed_file [] _ _ ∅ ∅); reflexivity.
Defined.

(** C5, the claim as stated fails: [aa.json] does not parse and
    [en.json] does; [created] throws and the service is left without
    [en], which loading [en.json] alone provides. *)
Lemma malformed_file_prevents_later_languages :
  Languages.created Sample.directory ∅ = (∅, Throw SyntaxError) /\
  fst (Languages.created Sample.directory ∅) !! "en" = None /\
  fst (Languages.created (tail Sample.directory) ∅) !! "en" = Some Sample.en.
Proof. repeat split; vm_compute; reflexivity. Qed.

(** ** The results mapping *)

(** Whatever the submission, [results] has one key for each distinct
    spelling other than ["__proto__"], array indices first and ascending. *)
Lemma results_have_one_key_per_spelling ctx lang level words r :
  Games.findWordsResults ctx lang level words = Return r ->
  NoDup (JsObject.keys (Response.results r)) /\
  enumerationOrder 0 (JsObject.keys (Response.results r)) = true /\
  forall word, In word (JsObject.keys (Response.results r)) <->
               In word words /\ word <> "__proto__".
Proof.
  intros Hr.
  destruct (findWordsResults_Return _ _ _ _ _ Hr)
    as (levelSettings & step & _ & _ & _ & _ & Hres & _).
  rewrite Hres. split; [apply prefixResults_NoDup|]. split.
  - now apply (enumerationOrder_loop _ words JsObject.empty).
  - intros word. apply (keys_loop_fresh _ words word).
Qed.

(** C7, as the code has it.  For a submission whose words are neither
    array indices nor ["__proto__"], the keys of [results] are the
    distinct submitted spellings in the order of their first occurrence,
    one key for each, and every submitted word is mapped to the outcome of
    its prefix test, whichever occurrence wrote it last. *)
Theorem results_list_ordinary_words_in_submission_order ctx lang level words r :
  Games.findWordsResults ctx lang level words = Return r ->
  Forall (fun word => ordinaryKey word = true) words ->
  JsObject.keys (Response.results r) = distinctSpellings words /\
  NoDup (JsObject.keys (Response.results r)) /\
  (forall word, In word (JsObject.keys (Response.results r)) <-> In word words) /\
  exists levelSettings,
    Games.getSettings ctx lang level = Return levelSettings /\
    forall word, In word words ->
      JsObject.getOwn (Response.results r) word =
        Some (JsBoolean (startsWithLetter (LevelSettings.letter levelSettings) word)).
Proof.
  intros Hr Hall.
  destruct (findWordsResults_Return _ _ _ _ _ Hr)
    as (levelSettings & step & Hs & _ & _ & _ & Hres & _).
  assert (Hkeys : JsObject.keys (Response.results r) = distinctSpellings words).
  { rewrite Hres. unfold prefixResults.
    exact (keys_loop_ordinary _ words JsObject.empty Hall). }
  split; [exact Hkeys|]. rewrite Hkeys.
  split; [apply distinctSpellings_spec|]. split; [apply distinctSpellings_spec|].
  exists levelSettings. split; [exact Hs|]. intros word Hin.
  rewrite Hres.
  apply (getOwn_loop (fun word =>
           JsBoolean (startsWithLetter (LevelSettings.letter levelSettings) word)));
    [exact Hin|].
  rewrite Forall_forall in Hall. apply list_elem_of_In, Hall in Hin.
  unfold ordinaryKey in Hin. apply andb_true_iff in Hin as [_ Hin].
  apply negb_true_iff, String.eqb_neq in Hin. exact Hin.
Qed.

Lemma results_list_ordinary_words_in_submission_order_witness :
  Games.findWordsResults Sample.ctx "en" "1" ["apple"; "ant"; "banana"; "Apple"]
    = Return Sample.response /\
  Forall (fun word => ordinaryKey word = true) ["apple"; "ant"; "banana"; "Apple"] /\
  JsObject.keys (Response.results Sample.response) =
    distinctSpellings ["apple"; "ant"; "banana"; "Apple"].
Proof.
  assert (Hall : Forall (fun word => ordinaryKey word = true)
                        ["apple"; "ant"; "banana"; "Apple"]).
  { repeat constructor. }
  split; [vm_compute; reflexivity|]. split; [exact Hall|].
  apply (results_list_ordinary_words_in_submission_order Sample.ctx "en" "1"
           ["apple"; "ant"; "banana"; "Apple"] Sample.response);
    [vm_compute; reflexivity|exact Hall].
Defined.

(** C7, the claim as stated fails: the submission [b], [1] comes back
    with the key [1] before the key [b]; and the submission
    ["__proto__"] comes back with no entry. *)
Lemma results_do_not_always_keep_submission_order :
  (exists r,
     Games.findWordsResults Sample.ctx "en" "1" ["b"; "1"] = Return r /\
     JsObject.keys (Response.results r) = ["1"; "b"] /\
     JsObject.keys (Response.results r) <> distinctSpellings ["b"; "1"]) /\
  (exists r,
     Games.findWordsResults Sample.ctx "en" "1" ["__proto__"] = Return r /\
     Response.results r = []).
Proof.
  split; eexists; (split; [vm_compute; reflexivity|]).
  - split; [reflexivity|]. vm_compute. discriminate.
  - reflexivity.
Qed.

(** ** Single and batch checks *)

Lemma checkMultiple_Return_supported dictionaries lang words response :
  Languages.checkMultiple dictionaries lang words = Return response ->
  exists dictionary, dictionaries !! lang = Some dictionary.
Proof.
  unfold Languages.checkMultiple, Languages.hasOwnProperty.
  destruct (dictionaries !! lang) as [dictionary|]; [eauto|discriminate].
Qed.

(** X1.  The batch check agrees with the single check: in the response of
    [checkMultiple], every submitted word other than ["__proto__"] is
    mapped to the [result] that [check] gives for that word alone. *)
Theorem checkMultiple_agrees_with_check dictionaries lang words response word :
  Languages.checkMultiple dictionaries lang words = Return response ->
  In word words -> word <> "__proto__" ->
  exists checked,
    Languages.check dictionaries lang word = Return checked /\
    JsObject.getOwn response word = Some (Languages.result checked).
Proof.
  intros Hr Hin Hp.
  destruct (checkMultiple_Return_supported _ _ _ _ Hr) as [dictionary Hd].
  rewrite (checkMultiple_supported _ _ _ _ Hd) in Hr. injection Hr as <-.
  exists {| Languages.result := Dictionary.Boolean (Dictionary.get dictionary word) |}.
  split.
  - unfold Languages.check, Languages.hasOwnProperty. rewrite Hd. simpl.
    apply (checkWord_supported _ _ _ _ Hd).
  - apply (getOwn_loop (fun word => Dictionary.Boolean (Dictionary.get dictionary word)));
      assumption.
Qed.

Lemma checkMultiple_agrees_with_check_witness :
  exists response,
    Languages.checkMultiple (dictionaries Sample.ctx) "en" ["apple"; "Apple"; "7"] = Return response /\
    exists checked,
      Languages.check (dictionaries Sample.ctx) "en" "Apple" = Return checked /\
      JsObject.getOwn response "Apple" = Some (Languages.result checked).
Proof.
  eexists. split; [vm_compute; reflexivity|].
  eapply (checkMultiple_agrees_with_check (dictionaries Sample.ctx) "en" ["apple"; "Apple"; "7"]).
  - vm_compute. reflexivity.
  - simpl. tauto.
  - discriminate.
Defined.

(** X2.  [check] and [checkMultiple] complete normally exactly on the
    languages for which [checkLanguage] answers [true]; on any other
    language both throw the "is not supported" client error, whatever
    the words, also for an empty batch. *)
Theorem check_actions_fail_only_as_not_supported dictionaries lang word words :
  if Languages.checkLanguage dictionaries lang
  then (exists checked, Languages.check dictionaries lang word = Return checked) /\
       (exists response, Languages.checkMultiple dictionaries lang words = Return response)
  else Languages.check dictionaries lang word = Throw (Languages.notSupported lang) /\
       Languages.checkMultiple dictionaries lang words = Throw (Languages.notSupported lang) /\
       Languages.checkMultiple dictionaries lang [] = Throw (Languages.notSupported lang).
Proof.
  unfold Languages.checkLanguage, Languages.hasOwnProperty.
  destruct (dictionaries !! lang) as [dictionary|] eqn:Hd.
  - split.
    + eexists. unfold Languages.check, Languages.hasOwnProperty. rewrite Hd. simpl.
      apply (checkWord_supported _ _ _ _ Hd).
    + eexists. apply (checkMultiple_supported _ _ _ _ Hd).
  - unfold Languages.check, Languages.checkMultiple, Languages.hasOwnProperty.
    rewrite Hd. simpl. repeat split.
Qed.

(** X3.  The response of [checkMultiple] has exactly one key for each
    distinct submitted word other than ["__proto__"], listed with the
    array indices first and ascending; when no word is an array index
    or ["__proto__"], the keys are the distinct words in the order of
    their first occurrence. *)
Theorem checkMultiple_has_one_key_per_word dictionaries lang words response :
  Languages.checkMultiple dictionaries lang words = Return response ->
  NoDup (JsObject.keys response) /\
  enumerationOrder 0 (JsObject.keys response) = true /\
  (forall word, In word (JsObject.keys response) <-> In word words /\ word <> "__proto__") /\
  (Forall (fun word => ordinaryKey word = true) words ->
   JsObject.keys response = distinctSpellings words).
Proof.
  intros Hr.
  destruct (checkMultiple_Return_supported _ _ _ _ Hr) as [dictionary Hd].
  rewrite (checkMultiple_supported _ _ _ _ Hd) in Hr. injection Hr as <-.
  split; [apply NoDup_keys_fold_set; constructor|]. split.
  - now apply (enumerationOrder_loop _ words JsObject.empty).
  - split.
    + intros word. apply (keys_loop_fresh _ words word).
    + intros Hall. exact (keys_loop_ordinary _ words JsObject.empty Hall).
Qed.

Lemma checkMultiple_has_one_key_per_word_witness :
  exists response,
    Languages.checkMultiple (dictionaries Sample.ctx) "en" ["b"; "7"; "b"; "__proto__"; "3"]
      = Return response /\
    JsObject.keys response = ["3"; "7"; "b"] /\
    NoDup (JsObject.keys response).
Proof.
  eexists. split; [vm_compute; reflexivity|]. split; [reflexivity|].
  eapply (checkMultiple_has_one_key_per_word (dictionaries Sample.ctx) "en"
            ["b"; "7"; "b"; "__proto__"; "3"]).
  vm_compute. reflexivity.
Defined.

(** ** What the [created] hook loads *)

(** X4.  [created] of the languages service reads nothing but regular
    files whose name ends with [.json]: directories and other files
    change neither the dictionaries nor the outcome. *)
Theorem created_reads_only_json_files directory dictionaries :
  Languages.created directory dictionaries =
  Languages.created (List.filter dictionaryFile directory) dictionaries.
Proof.
  revert dictionaries. induction directory as [|entry rest IH]; intros dictionaries;
    [reflexivity|].
  simpl. fold (dictionaryFile entry).
  destruct (dictionaryFile entry) eqn:Hf; [|apply IH].
  simpl. fold (dictionaryFile entry). rewrite Hf.
  destruct (Languages.parsed entry); [apply IH|reflexivity].
Qed.

Lemma created_lookup_other directory dictionaries code :
  Forall (fun entry => dictionaryFile entry = true -> languageCode entry <> code) directory ->
  fst (Languages.created directory dictionaries) !! code = dictionaries !! code.
Proof.
  intros Hall. revert dictionaries.
  induction Hall as [|entry rest Hentry _ IH]; intros dictionaries; [reflexivity|].
  simpl. fold (dictionaryFile entry). destruct (dictionaryFile entry) eqn:Hf; [|apply IH].
  destruct (Languages.parsed entry) as [words|]; [|reflexivity].
  rewrite IH. fold (languageCode entry). unfold Languages.assign.
  destruct (String.eqb (languageCode entry) "__proto__"); [reflexivity|].
  apply lookup_insert_ne. now apply Hentry.
Qed.

(** X5.  [created] never removes or changes a language that no file it
    reads is named after, whether it completes or throws: the language
    keeps its dictionary, [checkLanguage] and [check] answer for it as
    before. *)
Theorem created_keeps_other_languages directory dictionaries code :
  Forall (fun entry => dictionaryFile entry = true -> languageCode entry <> code) directory ->
  fst (Languages.created directory dictionaries) !! code = dictionaries !! code /\
  Languages.checkLanguage (fst (Languages.created directory dictionaries)) code =
    Languages.checkLanguage dictionaries code /\
  forall word,
    Languages.check (fst (Languages.created directory dictionaries)) code word =
    Languages.check dictionaries code word.
Proof.
  intros Hall. pose proof (created_lookup_other _ dictionaries _ Hall) as Hlook.
  split; [exact Hlook|].
  unfold Languages.check, Languages.checkWord, Languages.checkLanguage,
    Languages.hasOwnProperty.
  rewrite Hlook. split; [reflexivity|]. intros word. reflexivity.
Qed.

Lemma created_keeps_other_languages_witness :
  Forall (fun entry => dictionaryFile entry = true -> languageCode entry <> "fr")
         (tail Sample.directory) /\
  fst (Languages.created (tail Sample.directory) (<["fr" := Sample.en]> ∅)) !! "fr"
    = Some Sample.en.
Proof.
  assert (H : Forall (fun entry => dictionaryFile entry = true -> languageCode entry <> "fr")
                     (tail Sample.directory)).
  { repeat constructor. intros _. vm_compute. discriminate. }
  split; [exact H|].
  rewrite (proj1 (created_keeps_other_languages (tail Sample.directory) _ "fr" H)).
  vm_compute. reflexivity.
Defined.

(** X6.  In a directory whose [.json] files all parse, the last file
    stored under a language code other than ["__proto__"] decides that
    language: [created] completes, the language is supported, and
    [check] answers every word from that file's object, whatever an
    earlier file stored under the same code. *)
Theorem created_last_file_decides before entry after dictionaries words :
  dictionaryFile entry = true ->
  Languages.parsed entry = Some words ->
  languageCode entry <> "__proto__" ->
  Forall (fun other => dictionaryFile other = true -> Languages.parsed other <> None)
         (before ++ after) ->
  Forall (fun other => dictionaryFile other = true ->
                       languageCode other <> languageCode entry) after ->
  let outcome := Languages.created (before ++ entry :: after) dictionaries in
  snd outcome = Return tt /\
  fst outcome !! languageCode entry = Some words /\
  Languages.checkLanguage (fst outcome) (languageCode entry) = true /\
  forall word, contains (fst outcome) (languageCode entry) word = Some (holds words word).
Proof.
  intros Hf Hp Hproto Hparse Hlater outcome.
  apply Forall_app in Hparse as [Hbefore Hafter].
  assert (Hparse' : forall l, Forall (fun other => dictionaryFile other = true ->
                                         Languages.parsed other <> None) l ->
            Forall (fun e => Languages.isFile e = true ->
                             JsString.endsWith (Languages.name e) ".json" = true ->
                             Languages.parsed e <> None) l).
  { intros l Hl. eapply Forall_impl; [exact Hl|]. intros e He H1 H2. apply He.
    unfold dictionaryFile. now rewrite H1, H2. }
  assert (Hout : outcome =
                 Languages.created after
                   (<[languageCode entry := words]>
                      (fst (Languages.created before dictionaries)))).
  { unfold outcome. rewrite created_app.
    pose proof (created_completes before dictionaries (Hparse' _ Hbefore)) as Hc.
    destruct (Languages.created before dictionaries) as [loaded c]. simpl in Hc. subst c.
    simpl. fold (dictionaryFile entry). rewrite Hf, Hp. fold (languageCode entry).
    unfold Languages.assign. apply String.eqb_neq in Hproto. now rewrite Hproto. }
  assert (Hlook : fst outcome !! languageCode entry = Some words).
  { rewrite Hout, (created_lookup_other _ _ _ Hlater). apply lookup_insert_eq. }
  split; [rewrite Hout; apply created_completes, Hparse', Hafter|].
  split; [exact Hlook|]. split.
  - unfold Languages.checkLanguage, Languages.hasOwnProperty. now rewrite Hlook.
  - intros word. unfold contains, Languages.check, Languages.hasOwnProperty.
    rewrite Hlook. simpl. rewrite (checkWord_supported _ _ _ _ Hlook). simpl.
    unfold holds. now destruct (Dictionary.get words word).
Qed.

Lemma created_last_file_decides_witness :
  fst (Languages.created Sample.colliding ∅) !! "a.json" = Some Sample.en /\
  contains (fst (Languages.created Sample.colliding ∅)) "a.json" "apple" = Some true /\
  contains (fst (Languages.created (firstn 1 Sample.colliding) ∅)) "a.json" "apple"
    = Some false.
Proof.
  pose (entry := {| Languages.name := "a.json.json"; Languages.isFile := true;
                    Languages.parsed := Some Sample.en |}).
  destruct (created_last_file_decides (firstn 1 Sample.colliding) entry [] ∅ Sample.en)
    as (_ & Hlook & _ & H).
  - reflexivity.
  - reflexivity.
  - discriminate.
  - repeat constructor. discriminate.
  - constructor.
  - split; [exact Hlook|]. split; [exact (H "apple")|]. vm_compute. reflexivity.
Defined.

Lemma length_append_suffix base suffix :
  String.length (base ++ suffix) = (String.length base + String.length suffix)%nat.
Proof. induction base as [|c rest IH]; simpl; [reflexivity|now rewrite IH]. Qed.

Lemma startsWith_dotFree base :
  dotFree base = true ->
  JsString.replace (base ++ ".json") ".json" "" = base /\
  String.substring (String.length base) 5 (base ++ ".json") = ".json".
Proof.
  induction base as [|c rest IH]; [intros _; split; reflexivity|].
  simpl dotFree. rewrite andb_true_iff, negb_true_iff. intros [Hc Hrest].
  destruct (IH Hrest) as [IH1 IH2]. split.
  - change ((String c rest ++ ".json")%string) with (String c (rest ++ ".json")).
    cbn [JsString.replace JsString.startsWith]. rewrite Hc. simpl. now rewrite IH1.
  - exact IH2.
Qed.

(** X7.  A file named [<base>.json], with no dot in [<base>] and
    [<base>] other than ["__proto__"], is read by [created] and stored
    under the language code [<base>], which [checkLanguage] then
    accepts. *)
Theorem json_file_is_stored_under_its_base_name base :
  dotFree base = true ->
  base <> "__proto__" ->
  JsString.endsWith (base ++ ".json") ".json" = true /\
  JsString.replace (base ++ ".json") ".json" "" = base /\
  forall words dictionaries,
    Languages.created
      [ {| Languages.name := base ++ ".json"; Languages.isFile := true;
           Languages.parsed := Some words |} ] dictionaries
    = (<[base := words]> dictionaries, Return tt) /\
    Languages.checkLanguage (<[base := words]> dictionaries) base = true.
Proof.
  intros Hbase Hproto. destruct (startsWith_dotFree base Hbase) as [Hreplace Hsub].
  assert (Hends : JsString.endsWith (base ++ ".json") ".json" = true).
  { unfold JsString.endsWith. rewrite length_append_suffix. simpl String.length.
    replace (String.length base + 5 - 5)%nat with (String.length base) by lia.
    rewrite Hsub. apply andb_true_iff. split; [apply Nat.leb_le; lia|reflexivity]. }
  split; [exact Hends|]. split; [exact Hreplace|].
  intros words dictionaries. split.
  - simpl. rewrite Hends, Hreplace. unfold Languages.assign.
    apply String.eqb_neq in Hproto. now rewrite Hproto.
  - unfold Languages.checkLanguage, Languages.hasOwnProperty.
    now rewrite lookup_insert_eq.
Qed.

Lemma json_file_is_stored_under_its_base_name_witness :
  dotFree "pt-BR" = true /\
  "pt-BR" <> "__proto__" /\
  JsString.replace ("pt-BR" ++ ".json") ".json" "" = "pt-BR" /\
  Languages.created
    [ {| Languages.name := "pt-BR" ++ ".json"; Languages.isFile := true;
         Languages.parsed := Some Sample.en |} ] ∅
  = (<["pt-BR" := Sample.en]> ∅, Return tt).
Proof.
  destruct (json_file_is_stored_under_its_base_name "pt-BR") as (_ & H1 & H2);
    [reflexivity|discriminate|].
  split; [reflexivity|]. split; [discriminate|]. split; [exact H1|].
  exact (proj1 (H2 Sample.en ∅)).
Defined.

(** ** The list of supported languages *)

Lemma tableMap_lookup {V : Type} (o : JsObject V) k :
  tableMap o !! k = JsObject.getOwn o k.
Proof.
  induction o as [|[k0 v0] rest IH]; simpl; [apply lookup_empty|].
  destruct (String.eqb k0 k) eqn:E.
  - apply String.eqb_eq in E. subst k0. apply lookup_insert_eq.
  - apply String.eqb_neq in E. rewrite lookup_insert_ne by exact E. exact IH.
Qed.

Lemma tableMap_set {V : Type} (o : JsObject V) k v :
  k <> "__proto__" -> tableMap (JsObject.set o k v) = <[k := v]> (tableMap o).
Proof.
  intros Hk. apply map_eq. intros k'.
  rewrite tableMap_lookup, getOwn_set by exact Hk.
  destruct (String.eqb k k') eqn:E.
  - apply String.eqb_eq in E. subst k'. now rewrite lookup_insert_eq.
  - apply String.eqb_neq in E. rewrite lookup_insert_ne by exact E.
    now rewrite tableMap_lookup.
Qed.

Lemma tableMap_assign (table : JsObject (gmap string Json)) k words :
  tableMap (JsObject.set table k words) = Languages.assign (tableMap table) k words.
Proof.
  unfold Languages.assign. destruct (String.eqb k "__proto__") eqn:E.
  - apply String.eqb_eq in E. now subst k.
  - apply String.eqb_neq in E. now apply tableMap_set.
Qed.

(** The two readings of [created] agree: loading a directory into the
    table of own properties and loading it into the finite map give the
    same outcome and the same language under every code. *)
Lemma createdTable_agrees_with_created directory table :
  snd (Languages.createdTable directory table) =
    snd (Languages.created directory (tableMap table)) /\
  tableMap (fst (Languages.createdTable directory table)) =
    fst (Languages.created directory (tableMap table)).
Proof.
  revert table.
  induction directory as [|entry rest IH]; intros table; [split; reflexivity|].
  simpl. fold (dictionaryFile entry). destruct (dictionaryFile entry) eqn:Hf; [|apply IH].
  destruct (Languages.parsed entry) as [words|]; [|split; reflexivity].
  rewrite <- tableMap_assign. apply IH.
Qed.

Lemma createdTable_keys_invariant directory table :
  NoDup (JsObject.keys table) ->
  enumerationOrder 0 (JsObject.keys table) = true ->
  NoDup (JsObject.keys (fst (Languages.createdTable directory table))) /\
  enumerationOrder 0 (JsObject.keys (fst (Languages.createdTable directory table))) = true.
Proof.
  revert table. induction directory as [|entry rest IH]; intros table Hnd Horder;
    [split; assumption|].
  simpl. destruct (Languages.isFile entry && _)%bool; [|now apply IH].
  destruct (Languages.parsed entry) as [words|]; [|split; assumption].
  apply IH; [now apply NoDup_keys_set|now apply enumerationOrder_set].
Qed.

(** X8.  After [created], the [get] action lists every supported
    language exactly once, array-index codes first and ascending, and
    [count] is their number: a code is listed if and only if
    [checkLanguage] answers [true] for it.  No file is taken to be
    stored under ["__proto__"], which [get] would not list. *)
Theorem get_lists_each_supported_language_once directory :
  Forall (fun entry => dictionaryFile entry = true -> languageCode entry <> "__proto__")
         directory ->
  let answer := Languages.get (fst (Languages.createdTable directory JsObject.empty)) in
  NoDup (Languages.languages answer) /\
  enumerationOrder 0 (Languages.languages answer) = true /\
  Languages.count answer = Z.of_nat (length (Languages.languages answer)) /\
  forall lang,
    In lang (Languages.languages answer) <->
    Languages.checkLanguage (fst (Languages.created directory ∅)) lang = true.
Proof.
  intros Hall answer.
  set (table := fst (Languages.createdTable directory JsObject.empty)) in *.
  destruct (createdTable_keys_invariant directory JsObject.empty) as [Hnd Horder];
    [constructor|reflexivity|].
  split; [exact Hnd|]. split; [exact Horder|]. split; [reflexivity|].
  intros lang. unfold Languages.checkLanguage, Languages.hasOwnProperty.
  change (∅ : gmap string (gmap string Json)) with (tableMap (V := gmap string Json) []).
  rewrite <- (proj2 (createdTable_agrees_with_created directory [])).
  rewrite tableMap_lookup. subst answer. simpl.
  change (Languages.createdTable directory []).1 with table. split.
  - intros Hin. apply keys_getOwn in Hin as [v ->]. reflexivity.
  - intros H. destruct (in_dec string_dec lang (JsObject.keys table)) as [Hin|Hout];
      [exact Hin|].
    apply getOwn_None_keys in Hout. rewrite Hout in H. discriminate.
Qed.

Lemma get_lists_each_supported_language_once_witness :
  Languages.get (fst (Languages.createdTable (tail Sample.directory) JsObject.empty))
    = {| Languages.languages := ["en"]; Languages.count := 1 |} /\
  (In "en" ["en"] <->
   Languages.checkLanguage (fst (Languages.created (tail Sample.directory) ∅)) "en" = true).
Proof.
  split; [vm_compute; reflexivity|].
  destruct (get_lists_each_supported_language_once (tail Sample.directory))
    as (_ & _ & _ & H).
  - repeat constructor. intros _. vm_compute. discriminate.
  - exact (H "en").
Defined.

(** ** Loading the levels *)

Lemma games_created_app before after games :
  Games.created (before ++ after) games =
  match Games.created before games with
  | (loaded, Return _) => Games.created after loaded
  | (loaded, Throw e) => (loaded, Throw e)
  end.
Proof.
  revert games. induction before as [|entry rest IH]; intros games; simpl; [reflexivity|].
  destruct (Games.isFile entry && JsString.endsWith (Games.name entry) ".json")%bool;
    [|apply IH].
  destruct (Games.parsed entry); [apply IH|reflexivity].
Qed.

Lemma games_created_completes directory games :
  Forall (fun entry => levelsFile entry = true -> Games.parsed entry <> None) directory ->
  snd (Games.created directory games) = Return tt.
Proof.
  intros Hall. revert games.
  induction Hall as [|entry rest Hentry _ IH]; intros games; simpl; [reflexivity|].
  fold (levelsFile entry). destruct (levelsFile entry); [|apply IH].
  destruct (Games.parsed entry) eqn:Hp; [apply IH|]. now destruct (Hentry eq_refl).
Qed.

Lemma games_created_keeps directory games code :
  Forall (fun entry => levelsFile entry = true -> gamesCode entry <> code) directory ->
  fst (Games.created directory games) !! code = games !! code.
Proof.
  intros Hall. revert games.
  induction Hall as [|entry rest Hentry _ IH]; intros games; [reflexivity|].
  simpl. fold (levelsFile entry). destruct (levelsFile entry) eqn:Hf; [|apply IH].
  destruct (Games.parsed entry) as [levels|]; [|reflexivity].
  rewrite IH. fold (gamesCode entry). apply lookup_insert_ne. now apply Hentry.
Qed.

(** X9.  [created] of the games service stops with a [SyntaxError] at
    the first [.json] file that does not parse, keeping the levels of
    the files read before it and reading no file after it; entries that
    are no regular [.json] file are passed over. *)
Theorem games_created_stops_at_the_first_malformed_file
    before malformed after games loaded :
  Games.created before games = (loaded, Return tt) ->
  levelsFile malformed = true ->
  Games.parsed malformed = None ->
  Games.created (before ++ malformed :: after) games = (loaded, Throw SyntaxError) /\
  Games.created (List.filter levelsFile (before ++ malformed :: after)) games
    = (loaded, Throw SyntaxError).
Proof.
  intros Hbefore Hf Hp.
  assert (Hskip : forall directory games,
             Games.created directory games =
             Games.created (List.filter levelsFile directory) games).
  { clear. induction directory as [|entry rest IH]; intros games; [reflexivity|].
    simpl. fold (levelsFile entry). destruct (levelsFile entry) eqn:Hf; [|apply IH].
    simpl. fold (levelsFile entry). rewrite Hf.
    destruct (Games.parsed entry); [apply IH|reflexivity]. }
  assert (Hstop : Games.created (before ++ malformed :: after) games
                  = (loaded, Throw SyntaxError)).
  { rewrite games_created_app, Hbefore. simpl. fold (levelsFile malformed).
    now rewrite Hf, Hp. }
  split; [exact Hstop|]. now rewrite <- Hskip.
Qed.

Lemma games_created_stops_at_the_first_malformed_file_witness :
  Games.created
    [ {| Games.name := "notes.txt"; Games.isFile := true; Games.parsed := None |};
      {| Games.name := "en.json"; Games.isFile := true; Games.parsed := None |};
      {| Games.name := "fr.json"; Games.isFile := true;
         Games.parsed := Some (<["1" := Sample.level1]> ∅) |} ] ∅
  = (∅, Throw SyntaxError).
Proof.
  apply (games_created_stops_at_the_first_malformed_file
           [ {| Games.name := "notes.txt"; Games.isFile := true; Games.parsed := None |} ]
           {| Games.name := "en.json"; Games.isFile := true; Games.parsed := None |}
           [ {| Games.name := "fr.json"; Games.isFile := true;
                Games.parsed := Some (<["1" := Sample.level1]> ∅) |} ] ∅ ∅);
    reflexivity.
Defined.

(** X10.  Levels are served from the file that was loaded: in a games
    directory whose [.json] files all parse, for the last file stored
    under a language code that the dictionaries support, [getSettings]
    returns the settings that file gives for a level, and throws the
    "does not exist" client error for a level the file lacks. *)
Theorem loaded_levels_are_served before entry after levels dictionaries level :
  levelsFile entry = true ->
  Games.parsed entry = Some levels ->
  Forall (fun other => levelsFile other = true -> Games.parsed other <> None)
         (before ++ after) ->
  Forall (fun other => levelsFile other = true -> gamesCode other <> gamesCode entry) after ->
  Languages.checkLanguage dictionaries (gamesCode entry) = true ->
  let outcome := Games.created (before ++ entry :: after) ∅ in
  let ctx := {| dictionaries := dictionaries; games := fst outcome |} in
  snd outcome = Return tt /\
  Games.getSettings ctx (gamesCode entry) level =
    match levels !! level with
    | Some levelSettings => Return levelSettings
    | None => Throw (Games.levelNotFound (gamesCode entry) level)
    end.
Proof.
  intros Hf Hp Hparse Hlater Hsupported outcome ctx.
  apply Forall_app in Hparse as [Hbefore Hafter].
  assert (Hout : outcome =
                 Games.created after
                   (<[gamesCode entry := levels]> (fst (Games.created before ∅)))).
  { unfold outcome. rewrite games_created_app.
    pose proof (games_created_completes before ∅ Hbefore) as Hc.
    destruct (Games.created before ∅) as [loaded c]. simpl in Hc. subst c.
    simpl. fold (levelsFile entry). now rewrite Hf, Hp. }
  assert (Hlook : fst outcome !! gamesCode entry = Some levels).
  { rewrite Hout, (games_created_keeps _ _ _ Hlater). apply lookup_insert_eq. }
  split; [rewrite Hout; now apply games_created_completes|].
  unfold Games.getSettings. subst ctx. simpl. rewrite Hsupported, Hlook. simpl.
  reflexivity.
Qed.

Lemma loaded_levels_are_served_witness :
  Games.getSettings
    {| dictionaries := dictionaries Sample.ctx;
       games := fst (Games.created
                       [ {| Games.name := "en.json"; Games.isFile := true;
                            Games.parsed := Some (<["1" := Sample.level1]> ∅) |} ] ∅) |}
    "en" "1" = Return Sample.level1.
Proof.
  pose (entry := {| Games.name := "en.json"; Games.isFile := true;
                    Games.parsed := Some (<["1" := Sample.level1]> ∅) |}).
  destruct (loaded_levels_are_served [] entry [] (<["1" := Sample.level1]> ∅)
              (dictionaries Sample.ctx) "1") as [_ H].
  - reflexivity.
  - reflexivity.
  - constructor.
  - constructor.
  - vm_compute. reflexivity.
  - exact H.
Defined.

(** ** Outcomes of a scoring request *)

Lemma findIndex_exists {A : Type} (p : A -> bool) (arr : list A) :
  Exists (fun x => p x = true) arr ->
  0 <= Js.findIndex p arr /\ exists x, arr !! Z.to_nat (Js.findIndex p arr) = Some x.
Proof.
  induction 1 as [x rest Hx|x rest _ IH]; simpl.
  - rewrite Hx. split; [lia|eauto].
  - destruct (p x); [split; [lia|eauto]|].
    destruct IH as [Hi [y Hy]].
    destruct (Js.findIndex p rest <? 0) eqn:Hneg; [apply Z.ltb_lt in Hneg; lia|].
    split; [lia|]. exists y.
    replace (Z.to_nat (Js.findIndex p rest + 1)) with (S (Z.to_nat (Js.findIndex p rest)))
      by lia.
    exact Hy.
Qed.

Lemma findIndex_first {A : Type} (p : A -> bool) (before : list A) x (after : list A) :
  Forall (fun y => p y = false) before -> p x = true ->
  Js.findIndex p (before ++ x :: after)%list = Z.of_nat (length before).
Proof.
  intros Hbefore Hx. induction Hbefore as [|y rest Hy _ IH]; simpl.
  - now rewrite Hx.
  - rewrite Hy, IH. destruct (Z.of_nat (length rest) <? 0) eqn:Hneg; [|lia].
    apply Z.ltb_lt in Hneg. lia.
Qed.

(** X13.  The rules of a level come from its first step tagged
    [findWords]: steps of other types before it are passed over and the
    steps after it are not looked at.  The response carries that step's
    [required], the tag [findWords] and the level number of the request,
    and it is the response that the same request gets when the level has
    that step only. *)
Theorem first_findWords_step_sets_the_rules
    ctx lang level words r levels levelSettings before step after :
  Games.findWordsResults ctx lang level words = Return r ->
  games ctx !! lang = Some levels ->
  levels !! level = Some levelSettings ->
  LevelSettings.steps levelSettings = (before ++ step :: after)%list ->
  Forall (fun other => Step.type other <> "findWords") before ->
  Step.type step = "findWords" ->
  Response.required r = Step.required step /\
  Response.type r = "findWords" /\
  Response.level r = Number level /\
  Games.findWordsResults
    {| dictionaries := dictionaries ctx;
       games := <[lang := <[level := {| LevelSettings.letter := LevelSettings.letter levelSettings;
                                        LevelSettings.steps := [step] |}]> levels]>
                  (games ctx) |}
    lang level words = Return r.
Proof.
  intros Hr Hg Hl Hsteps Hbefore Hstep.
  destruct (findWordsResults_Return _ _ _ _ _ Hr)
    as (levelSettings' & step' & Hs & _ & Hstep' & _ & _ & _ & _ & _ & Hreq & Hty & Hlevel).
  destruct (getSettings_Return _ _ _ _ Hs) as (dictionary & levels' & Hd & Hg' & Hl').
  rewrite Hg in Hg'. injection Hg' as <-. rewrite Hl in Hl'. injection Hl' as <-.
  assert (Hbefore' : Forall (fun other => String.eqb (Step.type other) "findWords" = false)
                            before).
  { eapply Forall_impl; [exact Hbefore|]. intros other H. now apply String.eqb_neq. }
  assert (Hindex : findWordsIndex levelSettings = Z.of_nat (length before)).
  { unfold findWordsIndex. rewrite Hsteps. apply findIndex_first; [exact Hbefore'|].
    now rewrite Hstep. }
  rewrite Hindex, Nat2Z.id, Hsteps in Hstep'.
  rewrite lookup_app_r, Nat.sub_diag in Hstep' by lia. simpl in Hstep'.
  injection Hstep' as <-.
  split; [exact Hreq|]. split; [now rewrite Hty|]. split; [exact Hlevel|].
  set (only := {| LevelSettings.letter := LevelSettings.letter levelSettings;
                  LevelSettings.steps := [step] |}).
  set (ctx' := {| dictionaries := dictionaries ctx;
                  games := <[lang := <[level := only]> levels]> (games ctx) |}).
  assert (Hs' : Games.getSettings ctx' lang level = Return only).
  { apply (getSettings_found ctx' lang level dictionary (<[level := only]> levels));
      [exact Hd|apply lookup_insert_eq|apply lookup_insert_eq]. }
  rewrite (findWordsResults_unfold _ _ _ _ _ Hs'). rewrite <- Hr.
  rewrite (findWordsResults_unfold _ _ _ _ _ Hs). cbv zeta.
  rewrite Hindex, Nat2Z.id, Hsteps, lookup_app_r, Nat.sub_diag by lia.
  unfold findWordsIndex at 1 2. simpl LevelSettings.steps. simpl Js.findIndex.
  rewrite Hstep. simpl.
  replace (Z.of_nat (length before) >? -1) with true by (symmetry; apply Z.gtb_lt; lia).
  reflexivity.
Qed.

Lemma first_findWords_step_sets_the_rules_witness :
  exists r,
    Games.findWordsResults Sample.steps3 "en" "3" ["apple"; "ant"; "bee"] = Return r /\
    Response.required r = 2 /\
    Response.score r = Num 20 /\
    Games.findWordsResults
      {| dictionaries := dictionaries Sample.steps3;
         games := <["en" := <["3" := {| LevelSettings.letter := "a";
                                        LevelSettings.steps :=
                                          [ {| Step.type := "findWords";
                                               Step.rewardPerWord := 10;
                                               Step.required := 2 |} ] |}]>
                               (<["3" := Sample.level3]> ∅)]>
                    (games Sample.steps3) |}
      "en" "3" ["apple"; "ant"; "bee"] = Return r.
Proof.
  eexists. split; [vm_compute; reflexivity|].
  split; [reflexivity|]. split; [reflexivity|].
  eapply (first_findWords_step_sets_the_rules Sample.steps3 "en" "3" ["apple"; "ant"; "bee"] _
            (<["3" := Sample.level3]> ∅) Sample.level3
            [ {| Step.type := "quiz"; Step.rewardPerWord := 1; Step.required := 9 |} ]
            {| Step.type := "findWords"; Step.rewardPerWord := 10; Step.required := 2 |}
            [ {| Step.type := "findWords"; Step.rewardPerWord := 99; Step.required := 1 |} ]).
  - vm_compute. reflexivity.
  - reflexivity.
  - reflexivity.
  - reflexivity.
  - repeat constructor. discriminate.
  - reflexivity.
Defined.

(** ** What the score counts *)

Lemma countValid_filter_keys (f : string -> bool) (o : JsObject JsValue) :
  (forall k v, In (k, v) o -> v = JsBoolean (f k)) ->
  countValid o = Z.of_nat (length (List.filter f (JsObject.keys o))).
Proof.
  unfold countValid, JsObject.keys. intros Hall. f_equal.
  induction o as [|[k v] rest IH]; simpl; [reflexivity|].
  rewrite (Hall k v (or_introl eq_refl)).
  assert (IH' := IH (fun k' v' H => Hall k' v' (or_intror H))).
  simpl. destruct (f k); simpl; now rewrite IH'.
Qed.

Lemma filter_bool_Permutation {A : Type} (f : A -> bool) (l l' : list A) :
  l ≡ₚ l' -> List.filter f l ≡ₚ List.filter f l'.
Proof.
  induction 1 as [|x l l' _ IH|x y l|l l' l'' _ IH1 _ IH2]; simpl.
  - reflexivity.
  - destruct (f x); [now constructor|exact IH].
  - destruct (f x), (f y); try reflexivity. apply perm_swap.
  - now transitivity (List.filter f l').
Qed.

Lemma countValid_prefixResults letter words :
  countValid (prefixResults letter words) =
  Z.of_nat (length (List.filter (startsWithLetter letter)
                                (JsObject.keys (prefixResults letter words)))).
Proof.
  apply countValid_filter_keys. intros k v Hin.
  now apply prefixResults_entries in Hin as [_ ->].
Qed.

Lemma prefixResults_keys letter words word :
  In word (JsObject.keys (prefixResults letter words)) <->
  In word words /\ word <> "__proto__".
Proof. apply (keys_loop_fresh _ words word). Qed.

(** X14.  [total_found] counts spellings, not submitted words: when
    ["__proto__"] is not submitted, it is the number of distinct
    submitted spellings that start with the level's letter, however
    often and in whatever order they are submitted, and [score] is that
    number of rewards. *)
Theorem total_found_counts_distinct_valid_spellings ctx lang level words r levelSettings :
  Games.findWordsResults ctx lang level words = Return r ->
  Games.getSettings ctx lang level = Return levelSettings ->
  ~ In "__proto__" words ->
  Response.total_found r =
    Num (Z.of_nat (length (validSpellings (LevelSettings.letter levelSettings) words))).
Proof.
  intros Hr Hs Hproto.
  destruct (findWordsResults_Return _ _ _ _ _ Hr)
    as (levelSettings' & step & Hs' & _ & _ & _ & Hres & Htotal & _).
  rewrite Hs in Hs'. injection Hs' as <-.
  rewrite Htotal, Hres, countValid_prefixResults. do 2 f_equal.
  unfold validSpellings. apply Permutation_length, filter_bool_Permutation.
  apply NoDup_Permutation.
  - apply prefixResults_NoDup.
  - apply distinctSpellings_spec.
  - intros word. rewrite !list_elem_of_In, prefixResults_keys.
    rewrite (proj2 (distinctSpellings_spec words)). split; [tauto|].
    intros Hin. split; [exact Hin|]. intros ->. contradiction.
Qed.

Lemma total_found_counts_distinct_valid_spellings_witness :
  Games.findWordsResults Sample.ctx "en" "1" ["apple"; "ant"; "banana"; "Apple"]
    = Return Sample.response /\
  Response.total_found Sample.response =
    Num (Z.of_nat (length (validSpellings "a" ["apple"; "ant"; "banana"; "Apple"]))).
Proof.
  split; [vm_compute; reflexivity|].
  apply (total_found_counts_distinct_valid_spellings Sample.ctx "en" "1"
           ["apple"; "ant"; "banana"; "Apple"] Sample.response Sample.level1).
  - vm_compute. reflexivity.
  - vm_compute. reflexivity.
  - simpl. intros [H|[H|[H|[H|[]]]]]; discriminate.
Defined.

(** X15.  Two submissions that contain the same spellings get the same
    [results] entry for every word, the same [total_found], [score] and
    [success]: repeating a word or reordering the submission changes
    none of them. *)
Theorem score_depends_only_on_the_set_of_spellings ctx lang level words words' r r' :
  Games.findWordsResults ctx lang level words = Return r ->
  Games.findWordsResults ctx lang level words' = Return r' ->
  (forall word, In word words <-> In word words') ->
  Response.total_found r = Response.total_found r' /\
  Response.score r = Response.score r' /\
  Response.success r = Response.success r' /\
  JsObject.keys (Response.results r) ≡ₚ JsObject.keys (Response.results r') /\
  forall word,
    JsObject.getOwn (Response.results r) word = JsObject.getOwn (Response.results r') word.
Proof.
  intros Hr Hr' Hsame.
  destruct (findWordsResults_Return _ _ _ _ _ Hr)
    as (levelSettings & step & Hs & _ & Hstep & _ & Hres & Htotal & Hscore & Hsucc & _).
  destruct (findWordsResults_Return _ _ _ _ _ Hr')
    as (levelSettings' & step' & Hs' & _ & Hstep' & _ & Hres' & Htotal' & Hscore' & Hsucc' & _).
  rewrite Hs in Hs'. injection Hs' as <-. rewrite Hstep in Hstep'. injection Hstep' as <-.
  assert (Hperm : JsObject.keys (Response.results r) ≡ₚ JsObject.keys (Response.results r')).
  { rewrite Hres, Hres'. apply NoDup_Permutation; try apply prefixResults_NoDup.
    intros word. rewrite !list_elem_of_In, !prefixResults_keys, Hsame. tauto. }
  assert (Hcount : countValid (Response.results r) = countValid (Response.results r')).
  { rewrite Hres, Hres', !countValid_prefixResults. f_equal.
    apply Permutation_length, filter_bool_Permutation.
    rewrite <- Hres, <- Hres'. exact Hperm. }
  rewrite Htotal, Htotal', Hscore, Hscore', Hsucc, Hsucc', Hcount.
  repeat split; try reflexivity; [exact Hperm|].
  intros word. rewrite Hres, Hres'.
  set (f := fun word => JsBoolean (startsWithLetter (LevelSettings.letter levelSettings) word)).
  change (prefixResults (LevelSettings.letter levelSettings) words)
    with (assignAll f words JsObject.empty).
  change (prefixResults (LevelSettings.letter levelSettings) words')
    with (assignAll f words' JsObject.empty).
  destruct (string_dec word "__proto__") as [->|Hp].
  - now rewrite !getOwn_loop_proto.
  - destruct (in_dec string_dec word words) as [Hin|Hout].
    + rewrite !getOwn_loop; try assumption; [reflexivity|now apply Hsame].
    + rewrite !getOwn_loop_other; [reflexivity| |exact Hout].
      intros H. apply Hout. now apply Hsame.
Qed.

Lemma score_depends_only_on_the_set_of_spellings_witness :
  exists r',
    Games.findWordsResults Sample.ctx "en" "1" ["Apple"; "banana"; "ant"; "apple"; "ant"]
      = Return r' /\
    Response.score Sample.response = Response.score r'.
Proof.
  eexists. split; [vm_compute; reflexivity|].
  eapply (score_depends_only_on_the_set_of_spellings Sample.ctx "en" "1"
            ["apple"; "ant"; "banana"; "Apple"]
            ["Apple"; "banana"; "ant"; "apple"; "ant"]).
  - vm_compute. reflexivity.
  - vm_compute. reflexivity.
  - intros word. simpl. tauto.
Defined.

Lemma valid_keys_grow letter words words' :
  (forall word, In word words -> In word words') ->
  (length (List.filter (startsWithLetter letter) (JsObject.keys (prefixResults letter words)))
   <= length (List.filter (startsWithLetter letter)
                          (JsObject.keys (prefixResults letter words'))))%nat.
Proof.
  intros Hincl. apply List.NoDup_incl_length.
  - apply List.NoDup_filter, NoDup_ListNoDup, prefixResults_NoDup.
  - intros word Hin. apply filter_In in Hin as [Hin Hf]. apply filter_In.
    split; [|exact Hf]. apply prefixResults_keys in Hin as [Hin Hp].
    apply prefixResults_keys. split; [now apply Hincl|exact Hp].
Qed.

(** X16.  Submitting more never counts for less: when every word of one
    submission is also in another, the other's [total_found] is at least
    as large, and it succeeds whenever the first one does. *)
Theorem more_words_never_lower_total_found ctx lang level words words' r r' :
  Games.findWordsResults ctx lang level words = Return r ->
  Games.findWordsResults ctx lang level words' = Return r' ->
  (forall word, In word words -> In word words') ->
  exists found found',
    Response.total_found r = Num found /\
    Response.total_found r' = Num found' /\
    found <= found' /\
    (Response.success r = true -> Response.success r' = true).
Proof.
  intros Hr Hr' Hincl.
  destruct (findWordsResults_Return _ _ _ _ _ Hr)
    as (levelSettings & step & Hs & _ & Hstep & _ & Hres & Htotal & _ & Hsucc & _).
  destruct (findWordsResults_Return _ _ _ _ _ Hr')
    as (levelSettings' & step' & Hs' & _ & Hstep' & _ & Hres' & Htotal' & _ & Hsucc' & _).
  rewrite Hs in Hs'. injection Hs' as <-. rewrite Hstep in Hstep'. injection Hstep' as <-.
  exists (countValid (Response.results r)), (countValid (Response.results r')).
  assert (Hle : countValid (Response.results r) <= countValid (Response.results r')).
  { rewrite Hres, Hres', !countValid_prefixResults.
    apply Nat2Z.inj_le, valid_keys_grow, Hincl. }
  split; [exact Htotal|]. split; [exact Htotal'|]. split; [exact Hle|].
  rewrite Hsucc, Hsucc', !Z.leb_le. lia.
Qed.

Lemma more_words_never_lower_total_found_witness :
  exists r found found',
    Games.findWordsResults Sample.ctx "en" "1" ["azzz"; "ant"] = Return r /\
    Response.total_found Sample.suggesting = Num found /\
    Response.total_found r = Num found' /\
    found <= found'.
Proof.
  destruct (more_words_never_lower_total_found Sample.ctx "en" "1" ["azzz"] ["azzz"; "ant"]
              Sample.suggesting
              {| Response.level := Number "1"; Response.success := true;
                 Response.required := 2;
                 Response.results := [("azzz", JsBoolean true); ("ant", JsBoolean true)];
                 Response.someWords := ["apple"];
                 Response.score := Num 20; Response.total_found := Num 2;
                 Response.type := "findWords" |})
    as (found & found' & H1 & H2 & H3 & _).
  - vm_compute. reflexivity.
  - vm_compute. reflexivity.
  - intros word. simpl. tauto.
  - eexists _, found, found'. split; [vm_compute; reflexivity|].
    split; [exact H1|]. split; [exact H2|exact H3].
Defined.

(** X17.  [total_found] lies between 0 and the number of entries of
    [results], which is at most the number of submitted words. *)
Theorem total_found_is_at_most_the_number_of_words ctx lang level words r :
  Games.findWordsResults ctx lang level words = Return r ->
  exists found,
    Response.total_found r = Num found /\
    0 <= found <= Z.of_nat (length (Response.results r)) /\
    (length (Response.results r) <= length words)%nat.
Proof.
  intros Hr.
  destruct (findWordsResults_Return _ _ _ _ _ Hr)
    as (levelSettings & step & _ & _ & _ & _ & Hres & Htotal & _).
  exists (countValid (Response.results r)). split; [exact Htotal|]. split.
  - unfold countValid. split; [lia|]. apply Nat2Z.inj_le, filter_length_le.
  - rewrite Hres, <- (length_map fst).
    apply List.NoDup_incl_length; [apply NoDup_ListNoDup, prefixResults_NoDup|].
    intros word Hin. now apply prefixResults_keys in Hin as [Hin _].
Qed.

Lemma total_found_is_at_most_the_number_of_words_witness :
  Games.findWordsResults Sample.ctx "en" "1" ["apple"; "ant"; "banana"; "Apple"]
    = Return Sample.response /\
  exists found,
    Response.total_found Sample.response = Num found /\
    0 <= found <= Z.of_nat (length (Response.results Sample.response)) /\
    (length (Response.results Sample.response)
     <= length ["apple"; "ant"; "banana"; "Apple"])%nat.
Proof.
  split; [vm_compute; reflexivity|].
  apply (total_found_is_at_most_the_number_of_words Sample.ctx "en" "1"
           ["apple"; "ant"; "banana"; "Apple"] Sample.response).
  vm_compute. reflexivity.
Defined.

(** X18.  When no submitted word starts with the level's letter, and so
    for an empty submission, every entry of [results] is [false],
    [total_found] and [score] are 0, and [success] tells whether the
    step requires no word at all. *)
Theorem no_valid_word_scores_zero ctx lang level words r levelSettings :
  Games.findWordsResults ctx lang level words = Return r ->
  Games.getSettings ctx lang level = Return levelSettings ->
  Forall (fun word => startsWithLetter (LevelSettings.letter levelSettings) word = false)
         words ->
  Response.total_found r = Num 0 /\
  Response.score r = Num 0 /\
  Response.success r = (Response.required r <=? 0) /\
  (forall word v, In (word, v) (Response.results r) -> v = JsBoolean false) /\
  (words = [] -> Response.results r = []).
Proof.
  intros Hr Hs Hnone.
  destruct (findWordsResults_Return _ _ _ _ _ Hr)
    as (levelSettings' & step & Hs' & _ & _ & _ & Hres & Htotal & Hscore & Hsucc & Hreq & _).
  rewrite Hs in Hs'. injection Hs' as <-.
  assert (Hfalse : forall word v, In (word, v) (Response.results r) -> v = JsBoolean false).
  { intros word v Hin. rewrite Hres in Hin.
    apply prefixResults_entries in Hin as [Hin ->].
    rewrite Forall_forall in Hnone. apply list_elem_of_In, Hnone in Hin. now rewrite Hin. }
  assert (Hzero : countValid (Response.results r) = 0).
  { rewrite (countValid_filter_keys (fun _ => false)) by exact Hfalse.
    clear. induction (JsObject.keys (Response.results r)); [reflexivity|exact IHl]. }
  rewrite Htotal, Hscore, Hsucc, Hreq, Hzero. repeat split; try assumption.
  intros ->. exact Hres.
Qed.

Lemma no_valid_word_scores_zero_witness :
  exists r,
    Games.findWordsResults Sample.ctx "en" "1" ["banana"; "7"] = Return r /\
    Response.total_found r = Num 0 /\ Response.score r = Num 0.
Proof.
  eexists. split; [vm_compute; reflexivity|].
  destruct (no_valid_word_scores_zero Sample.ctx "en" "1" ["banana"; "7"]
              {| Response.level := Number "1"; Response.success := false;
                 Response.required := 2;
                 Response.results := [("7", JsBoolean false); ("banana", JsBoolean false)];
                 Response.someWords := ["ant"; "apple"];
                 Response.score := Num 0; Response.total_found := Num 0;
                 Response.type := "findWords" |} Sample.level1)
    as (H1 & H2 & _).
  - vm_compute. reflexivity.
  - vm_compute. reflexivity.
  - repeat constructor.
  - split; [exact H1|exact H2].
Defined.

(** ** What the response depends on *)

(** X19.  Apart from [someWords], the response does not depend on what
    the dictionaries hold: two stores with the same games whose
    dictionaries both support the language give the same [results],
    [total_found], [score], [success], [required], [type] and [level]
    for a request. *)
Theorem response_does_not_depend_on_dictionary_content
    ctx ctx' lang level words r r' :
  games ctx = games ctx' ->
  Games.findWordsResults ctx lang level words = Return r ->
  Games.findWordsResults ctx' lang level words = Return r' ->
  Response.results r = Response.results r' /\
  Response.total_found r = Response.total_found r' /\
  Response.score r = Response.score r' /\
  Response.success r = Response.success r' /\
  Response.required r = Response.required r' /\
  Response.type r = Response.type r' /\
  Response.level r = Response.level r'.
Proof.
  intros Hgames Hr Hr'.
  destruct (findWordsResults_Return _ _ _ _ _ Hr)
    as (s & step & Hs & _ & Hstep & _ & Hres & Htot & Hsc & Hsu & Hreq & Hty & Hlv).
  destruct (findWordsResults_Return _ _ _ _ _ Hr')
    as (s' & step' & Hs' & _ & Hstep' & _ & Hres' & Htot' & Hsc' & Hsu' & Hreq' & Hty' & Hlv').
  destruct (getSettings_Return _ _ _ _ Hs) as (_ & levels & _ & Hg & Hl).
  destruct (getSettings_Return _ _ _ _ Hs') as (_ & levels' & _ & Hg' & Hl').
  rewrite Hgames, Hg' in Hg. injection Hg as <-.
  rewrite Hl' in Hl. injection Hl as <-.
  rewrite Hstep' in Hstep. injection Hstep as <-.
  assert (Hsame : Response.results r = Response.results r') by now rewrite Hres, Hres'.
  rewrite Htot, Htot', Hsc, Hsc', Hsu, Hsu', Hreq, Hreq', Hty, Hty', Hlv, Hlv', Hsame.
  repeat split; reflexivity.
Qed.

Lemma response_does_not_depend_on_dictionary_content_witness :
  exists r',
    Games.findWordsResults
      {| dictionaries := <["en" := ∅]> ∅; games := games Sample.ctx |}
      "en" "1" ["apple"; "ant"; "banana"; "Apple"] = Return r' /\
    Response.results Sample.response = Response.results r' /\
    Response.score Sample.response = Response.score r'.
Proof.
  eexists. split; [vm_compute; reflexivity|].
  destruct (response_does_not_depend_on_dictionary_content Sample.ctx
              {| dictionaries := <["en" := ∅]> ∅; games := games Sample.ctx |}
              "en" "1" ["apple"; "ant"; "banana"; "Apple"] Sample.response
              {| Response.level := Number "1"; Response.success := true;
                 Response.required := 2;
                 Response.results :=
                   [("apple", JsBoolean true); ("ant", JsBoolean true);
                    ("banana", JsBoolean false); ("Apple", JsBoolean true)];
                 Response.someWords := [];
                 Response.score := Num 30; Response.total_found := Num 3;
                 Response.type := "findWords" |})
    as (H1 & _ & H2 & _).
  - reflexivity.
  - vm_compute. reflexivity.
  - vm_compute. reflexivity.
  - split; [exact H1|exact H2].
Defined.

Lemma lower_char_idempotent c :
  JsString.lower_char (JsString.lower_char c) = JsString.lower_char c.
Proof. destruct c as [[] [] [] [] [] [] [] []]; reflexivity. Qed.

Lemma toLowerCase_idempotent s :
  JsString.toLowerCase (JsString.toLowerCase s) = JsString.toLowerCase s.
Proof.
  induction s as [|c rest IH]; simpl; [reflexivity|].
  now rewrite lower_char_idempotent, IH.
Qed.

(** X20.  On ASCII strings the prefix test ignores case on both sides:
    submitted words that agree up to case get the same validity in
    [results], which is that of the lower-case word against the
    lower-case letter. *)
Theorem validity_ignores_case ctx lang level words r levelSettings word word' :
  Games.findWordsResults ctx lang level words = Return r ->
  Games.getSettings ctx lang level = Return levelSettings ->
  isAscii (LevelSettings.letter levelSettings) = true ->
  isAscii word = true -> isAscii word' = true ->
  In word words -> In word' words ->
  word <> "__proto__" -> word' <> "__proto__" ->
  JsString.toLowerCase word = JsString.toLowerCase word' ->
  JsObject.getOwn (Response.results r) word = JsObject.getOwn (Response.results r) word' /\
  JsObject.getOwn (Response.results r) word =
    Some (JsBoolean (startsWithLetter
                       (JsString.toLowerCase (LevelSettings.letter levelSettings))
                       (JsString.toLowerCase word))).
Proof.
  intros Hr Hs _ _ _ Hin Hin' Hp Hp' Hcase.
  destruct (validity_is_the_prefix_test _ _ _ _ _ _ Hr Hin Hp) as (s & Hs1 & Hw).
  destruct (validity_is_the_prefix_test _ _ _ _ _ _ Hr Hin' Hp') as (s' & Hs2 & Hw').
  rewrite Hs in Hs1, Hs2. injection Hs1 as <-. injection Hs2 as <-.
  split.
  - rewrite Hw, Hw'. unfold startsWithLetter. now rewrite Hcase.
  - rewrite Hw. unfold startsWithLetter. now rewrite !toLowerCase_idempotent.
Qed.

Lemma validity_ignores_case_witness :
  JsObject.getOwn (Response.results Sample.response) "apple" =
  JsObject.getOwn (Response.results Sample.response) "Apple".
Proof.
  apply (validity_ignores_case Sample.ctx "en" "1" ["apple"; "ant"; "banana"; "Apple"]
           Sample.response Sample.level1 "apple" "Apple").
  - vm_compute. reflexivity.
  - vm_compute. reflexivity.
  - reflexivity.
  - reflexivity.
  - reflexivity.
  - simpl. tauto.
  - simpl. tauto.
  - discriminate.
  - discriminate.
  - reflexivity.
Defined.
